(** * sagemaker-python-sdk: parameter ranges, MXNet and RL estimator configuration

    A shallow embedding of
      - [src/sagemaker/parameter.py]       (hyperparameter ranges),
      - [src/sagemaker/mxnet/estimator.py] (distribution check, job reconstruction),
      - [src/sagemaker/rl/estimator.py]    (toolkit table, image-tag parser, constructor),
    followed by the theorems that settle the properties stated for them.

    Python [str] values are [string]s (sequences of 8-bit code points), a [dict]
    with string keys is a [gmap string _], an exception is a value of [exn] and
    a call that may raise returns a [result]. *)

From Stdlib Require Import ZArith QArith Ascii String List Bool Lia.
From stdpp Require Import base option list list_monad strings pretty gmap fin_maps.

Local Open Scope string_scope.

(* ===================================================================== *)
(** ** Python values, truthiness, [str()], exceptions                      *)
(* ===================================================================== *)

Module Py.

(** The two enumerations of [rl/estimator.py]. *)
Inductive RLToolkit := COACH | RAY.
Inductive RLFramework := TENSORFLOW | MXNET.

(** The scalar Python objects that reach the modelled code as arguments. *)
Inductive value :=
| VNone
| VBool (b : bool)
| VInt (z : Z)
| VStr (s : string)
| VToolkit (t : RLToolkit)
| VFramework (f : RLFramework).

#[global] Instance RLToolkit_eq_dec : EqDecision RLToolkit.
Proof. solve_decision. Defined.
#[global] Instance RLFramework_eq_dec : EqDecision RLFramework.
Proof. solve_decision. Defined.
#[global] Instance value_eq_dec : EqDecision value.
Proof. solve_decision. Defined.

(** [bool(v)]: [None], [False], [0] and the empty string are falsy; members of
    a plain [enum.Enum] are always truthy. *)
Definition truthy (v : value) : bool :=
  match v with
  | VNone => false
  | VBool b => b
  | VInt z => negb (z =? 0)%Z
  | VStr s => negb (String.eqb s "")
  | VToolkit _ | VFramework _ => true
  end.

(** [str(v)], as used by ["{}".format(v)]. *)
Definition str (v : value) : string :=
  match v with
  | VNone => "None"
  | VBool true => "True"
  | VBool false => "False"
  | VInt z => pretty z
  | VStr s => s
  | VToolkit COACH => "RLToolkit.COACH"
  | VToolkit RAY => "RLToolkit.RAY"
  | VFramework TENSORFLOW => "RLFramework.TENSORFLOW"
  | VFramework MXNET => "RLFramework.MXNET"
  end.

(** The exceptions raised by the modelled code, with their message. *)
Inductive exn :=
| ValueError (msg : string)
| AttributeError (msg : string)
| KeyError (key : string)
| TypeError (msg : string).

Inductive result (A : Type) :=
| Ok (a : A)
| Raise (e : exn).
Arguments Ok {A} a.
Arguments Raise {A} e.

#[global] Instance result_ret : MRet result := fun A a => Ok a.
#[global] Instance result_bind : MBind result := fun A B f r =>
  match r with
  | Ok a => f a
  | Raise e => Raise e
  end.

(** Code that also writes to the [sagemaker] logger threads the list of the
    warnings logged so far. *)
Definition M (A : Type) : Type := list string -> result A * list string.

#[global] Instance M_ret : MRet M := fun A a log => (Ok a, log).
#[global] Instance M_bind : MBind M := fun A B f m log =>
  match m log with
  | (Ok a, log') => f a log'
  | (Raise e, log') => (Raise e, log')
  end.

Definition lift {A} (r : result A) : M A := fun log => (r, log).
Definition raise {A} (e : exn) : M A := fun log => (Raise e, log).
(** [logger.warning(msg)] *)
Definition warning (msg : string) : M unit := fun log => (Ok tt, (log ++ [msg])%list).

Definition is_value_error {A} (r : result A) : bool :=
  match r with Raise (ValueError _) => true | _ => false end.

(** [sep.join(l)] *)
Fixpoint join (sep : string) (l : list string) : string :=
  match l with
  | [] => ""
  | [x] => x
  | x :: rest => x +:+ sep +:+ join sep rest
  end.

(** [s.split(sep)] for a one-character separator: the fields between the
    occurrences of [sep]; an empty string gives one empty field. *)
Fixpoint split (sep : ascii) (s : string) : list string :=
  match s with
  | EmptyString => [""]
  | String c s' =>
      if Ascii.eqb c sep then "" :: split sep s'
      else match split sep s' with
           | [] => [String c ""]
           | f :: fs => String c f :: fs
           end
  end.

(** [l1 < l2] on lists of strings: the first position where the elements differ
    decides, by the order of [str]; a proper prefix is smaller. *)
Fixpoint list_lt (l1 l2 : list string) : bool :=
  match l1, l2 with
  | [], [] => false
  | [], _ :: _ => true
  | _ :: _, [] => false
  | x :: l1', y :: l2' =>
      if String.eqb x y then list_lt l1' l2' else String.ltb x y
  end.

End Py.

(* ===================================================================== *)
(** ** Regular expressions: the fragment of [re] used by the tag pattern   *)
(* ===================================================================== *)

Module Re.

(** Character classes. *)
Definition in_range (lo hi c : ascii) : bool :=
  Ascii.leb lo c && Ascii.leb c hi.
Definition upper : ascii -> bool := in_range "A" "Z".     (* [A-Z] *)
Definition lower : ascii -> bool := in_range "a" "z".     (* [a-z] *)
Definition digit : ascii -> bool := in_range "0" "9".     (* \d    *)
Definition newline : ascii := "010"%char.
Definition dot (c : ascii) : bool := negb (Ascii.eqb c newline). (* . *)

Inductive regex :=
| Start                                   (* ^ *)
| End_                                    (* $ *)
| Lit (l : string)                        (* literal text *)
| Class (p : ascii -> bool)               (* one character of a class *)
| StarClass (p : ascii -> bool)           (* greedy repetition of a class *)
| Cat (r1 r2 : regex)
| Alt (r1 r2 : regex)                     (* ordered alternation *)
| Group (n : nat) (r : regex).            (* capturing group number n *)

(** Captured groups: group number to captured text ([m.group(n)]). *)
Abbreviation captures := (gmap nat string).

(** [strip_prefix l s]: the rest of [s] after the literal [l], if [s] starts with it. *)
Fixpoint strip_prefix (l s : string) : option string :=
  match l, s with
  | EmptyString, _ => Some s
  | String a l', String b s' => if Ascii.eqb a b then strip_prefix l' s' else None
  | String _ _, EmptyString => None
  end.

(** [$] without MULTILINE: at the end of the subject, or just before a final newline. *)
Definition at_end (s : string) : bool :=
  match s with
  | EmptyString => true
  | String c EmptyString => Ascii.eqb c newline
  | _ => false
  end.

Section Matcher.
Context {R : Type}.

(** Greedy [p*]: the longest run first, then shorter ones on backtracking. The
    continuation receives the text matched, the new position and the rest. *)
Fixpoint star_class (p : ascii -> bool) (pos : nat) (s : string)
    (k : string -> nat -> string -> option R) : option R :=
  match s with
  | String c s' =>
      if p c then
        match star_class p (S pos) s' (fun m => k (String c m)) with
        | Some r => Some r
        | None => k "" pos s
        end
      else k "" pos s
  | EmptyString => k "" pos s
  end.

(** Backtracking matcher in continuation-passing style: [rmatch r pos s g k]
    tries the ways [r] can match at position [pos], where [s] is the rest of the
    subject, in the engine's order, and returns the first for which the
    continuation succeeds. *)
Fixpoint rmatch (r : regex) (pos : nat) (s : string) (g : captures)
    (k : string -> nat -> string -> captures -> option R) : option R :=
  match r with
  | Start => if Nat.eqb pos 0 then k "" pos s g else None
  | End_ => if at_end s then k "" pos s g else None
  | Lit l =>
      match strip_prefix l s with
      | Some s' => k l (pos + String.length l) s' g
      | None => None
      end
  | Class p =>
      match s with
      | String c s' => if p c then k (String c "") (S pos) s' g else None
      | EmptyString => None
      end
  | StarClass p => star_class p pos s (fun m pos' s' => k m pos' s' g)
  | Cat r1 r2 =>
      rmatch r1 pos s g (fun m1 pos1 s1 g1 =>
        rmatch r2 pos1 s1 g1 (fun m2 pos2 s2 g2 => k (m1 +:+ m2) pos2 s2 g2))
  | Alt r1 r2 =>
      match rmatch r1 pos s g k with
      | Some x => Some x
      | None => rmatch r2 pos s g k
      end
  | Group n r' =>
      rmatch r' pos s g (fun m pos' s' g' => k m pos' s' (<[n:=m]> g'))
  end.

End Matcher.

(** [re.compile(r).match(subject)]: a match anchored at position 0; the result
    is the table of captured groups, or [None]. *)
Definition match_ (r : regex) (subject : string) : option captures :=
  rmatch r 0 subject ∅ (fun _ _ _ g => Some g).

(** [m.group(n)] for a group that took part in the match. *)
Definition group (m : captures) (n : nat) : option string := m !! n.

(** Every character of [s] is in the class [p]. *)
Fixpoint all_in (p : ascii -> bool) (s : string) : bool :=
  match s with
  | EmptyString => true
  | String c s' => p c && all_in p s'
  end.

(** What it means for [r] to match: [matches r pos s g m pos' s' g'] when, at
    position [pos] with [s] the rest of the subject and [g] the groups captured
    so far, [r] can match the text [m], leaving [s'] at position [pos'] with the
    groups [g']. The matcher above searches these matches in the engine's
    order. *)
Inductive matches :
    regex -> nat -> string -> captures -> string -> nat -> string -> captures -> Prop :=
| m_start s g :
    matches Start 0 s g "" 0 s g
| m_end pos s g :
    at_end s = true -> matches End_ pos s g "" pos s g
| m_lit l pos s' g :
    matches (Lit l) pos (l +:+ s') g l (pos + String.length l) s' g
| m_class p c pos s' g :
    p c = true -> matches (Class p) pos (String c s') g (String c "") (S pos) s' g
| m_star p m pos s' g :
    all_in p m = true ->
    matches (StarClass p) pos (m +:+ s') g m (pos + String.length m) s' g
| m_cat r1 r2 pos s g m1 pos1 s1 g1 m2 pos2 s2 g2 :
    matches r1 pos s g m1 pos1 s1 g1 ->
    matches r2 pos1 s1 g1 m2 pos2 s2 g2 ->
    matches (Cat r1 r2) pos s g (m1 +:+ m2) pos2 s2 g2
| m_alt_l r1 r2 pos s g m pos' s' g' :
    matches r1 pos s g m pos' s' g' -> matches (Alt r1 r2) pos s g m pos' s' g'
| m_alt_r r1 r2 pos s g m pos' s' g' :
    matches r2 pos s g m pos' s' g' -> matches (Alt r1 r2) pos s g m pos' s' g'
| m_group n r pos s g m pos' s' g' :
    matches r pos s g m pos' s' g' ->
    matches (Group n r) pos s g m pos' s' (<[n:=m]> g').

End Re.

(* ===================================================================== *)
(** ** [json.dumps] and [json.loads] on scalar documents                   *)
(* ===================================================================== *)

Module Json.
Import Py.

Definition quote : ascii := "034"%char.
Definition backslash : ascii := "092"%char.

Definition hex_digit (n : N) : ascii :=
  match String.get (N.to_nat n) "0123456789abcdef" with
  | Some c => c
  | None => "0"%char
  end.

(** The escape of one character, as [json.encoder.py_encode_basestring_ascii]
    writes it: the two-character escapes of [ESCAPE_DCT], a [\u00xx] escape for
    the other characters outside the printable ASCII range, the character itself
    otherwise. *)
Definition escape_char (c : ascii) : string :=
  let n := N_of_ascii c in
  if Ascii.eqb c quote then String backslash (String quote "")
  else if Ascii.eqb c backslash then String backslash (String backslash "")
  else if (n =? 8)%N then String backslash "b"
  else if (n =? 12)%N then String backslash "f"
  else if (n =? 10)%N then String backslash "n"
  else if (n =? 13)%N then String backslash "r"
  else if (n =? 9)%N then String backslash "t"
  else if (n <? 32)%N || (126 <? n)%N then
    String backslash (String "u" (String "0" (String "0"
      (String (hex_digit (n / 16)) (String (hex_digit (n mod 16)) "")))))
  else String c "".

Fixpoint encode_chars (s : string) : string :=
  match s with
  | EmptyString => ""
  | String c s' => escape_char c +:+ encode_chars s'
  end.

Definition encode_basestring_ascii (s : string) : string :=
  String quote (encode_chars s +:+ String quote "").

(** [json.dumps(v)]; a member of an [enum.Enum] is not JSON serializable. *)
Definition dumps (v : value) : result string :=
  match v with
  | VNone => Ok "null"
  | VBool true => Ok "true"
  | VBool false => Ok "false"
  | VInt z => Ok (pretty z)
  | VStr s => Ok (encode_basestring_ascii s)
  | VToolkit _ | VFramework _ => Raise (TypeError "Object is not JSON serializable")
  end.

Definition unhex (c : ascii) : option N :=
  let n := N_of_ascii c in
  if (48 <=? n)%N && (n <=? 57)%N then Some (n - 48)%N
  else if (97 <=? n)%N && (n <=? 102)%N then Some (n - 87)%N
  else if (65 <=? n)%N && (n <=? 70)%N then Some (n - 55)%N
  else None.

(** The character denoted by a one-letter escape. *)
Definition unescape (e : ascii) : option ascii :=
  if Ascii.eqb e quote then Some quote
  else if Ascii.eqb e backslash then Some backslash
  else if Ascii.eqb e "/" then Some "/"%char
  else if Ascii.eqb e "b" then Some "008"%char
  else if Ascii.eqb e "f" then Some "012"%char
  else if Ascii.eqb e "n" then Some "010"%char
  else if Ascii.eqb e "r" then Some "013"%char
  else if Ascii.eqb e "t" then Some "009"%char
  else None.

(** The text after the opening quote of a string document, up to the closing
    quote, which has to end the document; control characters, unknown escapes
    and escapes of code points beyond the 8-bit range are rejected. *)
Fixpoint decode_body (s : string) : option string :=
  match s with
  | EmptyString => None
  | String c rest =>
      if Ascii.eqb c quote then
        match rest with EmptyString => Some "" | _ => None end
      else if Ascii.eqb c backslash then
        match rest with
        | String e rest' =>
            if Ascii.eqb e "u" then
              match rest' with
              | String h1 (String h2 (String h3 (String h4 rest''))) =>
                  match unhex h1, unhex h2, unhex h3, unhex h4 with
                  | Some 0%N, Some 0%N, Some a, Some b =>
                      option_map (String (ascii_of_N (16 * a + b))) (decode_body rest'')
                  | _, _, _, _ => None
                  end
              | _ => None
              end
            else
              match unescape e with
              | Some c' => option_map (String c') (decode_body rest')
              | None => None
              end
        | EmptyString => None
        end
      else if (N_of_ascii c <? 32)%N then None
      else option_map (String c) (decode_body rest)
  end.

(** The value of a run of decimal digits. *)
Fixpoint decode_digits (acc : Z) (s : string) : option Z :=
  match s with
  | EmptyString => Some acc
  | String c rest =>
      if Re.digit c then decode_digits (10 * acc + Z.of_N (N_of_ascii c - 48)) rest
      else None
  end.

Definition decode_nat (s : string) : option Z :=
  match s with
  | EmptyString => None
  | String "0" EmptyString => Some 0%Z
  | String "0" _ => None
  | _ => decode_digits 0 s
  end.

(** [json.loads(s)] on a document that is a single scalar (a string, an
    integer, [true], [false] or [null]); every other text is [None]. *)
Definition loads (s : string) : option value :=
  if String.eqb s "null" then Some VNone
  else if String.eqb s "true" then Some (VBool true)
  else if String.eqb s "false" then Some (VBool false)
  else match s with
       | String c rest =>
           if Ascii.eqb c quote then option_map VStr (decode_body rest)
           else if Ascii.eqb c "-" then option_map (fun z => VInt (- z)) (decode_nat rest)
           else option_map VInt (decode_nat s)
       | EmptyString => None
       end.

End Json.

(* ===================================================================== *)
(** ** [sagemaker/parameter.py]                                            *)
(* ===================================================================== *)

Module Ranges.
Import Py.

(** A Python number: an [int], or a [float] given by the rational it denotes. *)
Inductive number :=
| NInt (z : Z)
| NFloat (q : Q).

Definition to_Q (n : number) : Q :=
  match n with
  | NInt z => inject_Z z
  | NFloat q => q
  end.

(** [a <= b] and [a >= b] on numbers; Python compares an [int] with a [float]
    by their exact values. *)
Definition le (a b : number) : bool := Qle_bool (to_Q a) (to_Q b).
Definition ge (a b : number) : bool := le b a.

(** [ParameterRange], with [__init__(min_value, max_value, scaling_type="Auto")];
    [ContinuousParameter] and [IntegerParameter] inherit both methods below. *)
Record ParameterRange := {
  min_value : number;
  max_value : number;
  scaling_type : string;
}.

Definition ParameterRange_init (min_value max_value : number)
    (scaling_type : option string) : ParameterRange :=
  {| min_value := min_value; max_value := max_value;
     scaling_type := default "Auto" scaling_type |}.

Definition ContinuousParameter := ParameterRange_init.
Definition IntegerParameter := ParameterRange_init.

(** [ParameterRange.is_valid]:
    [value >= self.min_value and value <= self.max_value]. *)
Definition is_valid (self : ParameterRange) (value : number) : bool :=
  ge value (min_value self) && le value (max_value self).

(** Modelled from the spec: [sagemaker.utils.to_str] is not under src/; the
    spec gives it as the string coercion that never fails, [str(value)]. *)
Definition to_str (v : value) : string := Py.str v.

(** The argument of [CategoricalRanges.__init__]: a list, or another object. *)
Inductive values_arg :=
| AList (l : list value)
| AObject (v : value).

Record CategoricalParameter := { values : list string }.

(** [CategoricalRanges.__init__] *)
Definition CategoricalParameter_init (vs : values_arg) : CategoricalParameter :=
  match vs with
  | AList l => {| values := map to_str l |}
  | AObject v => {| values := [to_str v] |}
  end.

(** The dict with the keys ["Name"] and ["Values"] that both range methods return. *)
Record categorical_range := { Name : string; Values : list string }.

(** [CategoricalRanges.as_tuning_range] *)
Definition as_tuning_range (self : CategoricalParameter) (name : string)
    : categorical_range :=
  {| Name := name; Values := values self |}.

(** [CategoricalRanges.as_json_range]: [json.dumps(v) for v in self.values];
    on a [str], [json.dumps] does not raise. *)
Definition as_json_range (self : CategoricalParameter) (name : string)
    : categorical_range :=
  {| Name := name;
     Values := map Json.encode_basestring_ascii (values self) |}.

(** [CategoricalRanges.is_valid]: [value in self.values]. *)
Definition categorical_is_valid (self : CategoricalParameter) (value : string) : bool :=
  existsb (String.eqb value) (values self).

(** [CategoricalRanges.cast_to_type] *)
Definition cast_to_type (v : value) : string := to_str v.

End Ranges.

(* ===================================================================== *)
(** ** What the estimators take from the rest of the package               *)
(* ===================================================================== *)

Module Estimator.
Import Py.

(** The names that [mxnet/estimator.py] and [rl/estimator.py] import from
    modules of the package that are not under src/ ([sagemaker.fw_utils],
    [sagemaker.model], [sagemaker.mxnet.defaults], and the inherited
    [Framework._prepare_init_params_from_job_description]); the code is
    verified for whatever they are. *)
Class Imports := {
  job_details : Type;
  MXNET_VERSION : string;
  LAUNCH_PS_ENV_NAME : string;
  SAGEMAKER_OUTPUT_LOCATION : string;
  empty_framework_version_warning : string -> string -> string;
  python_deprecation_warning : string -> string;
  (* the tuple (framework, py_version, tag, scriptmode), each a str or None *)
  framework_name_from_image :
    string -> option string * option string * option string * option string;
  framework_version_from_tag : string -> option string;
  (* region, framework, instance type, version, py_version *)
  create_image_uri : string -> string -> string -> string -> string -> string;
  base_prepare_init_params_from_job_description :
    job_details -> option string -> result (gmap string value);
}.

(** The attributes of the base class that the modelled code reads. *)
Record Framework := {
  entry_point : string;
  source_dir : option string;
  _hyperparameters : gmap string value;
  image_name : option string;
  metric_definitions : option (list (string * string));
  output_path : value;
  train_instance_type : string;
  region_name : string;
}.

(** The keyword arguments passed on to the base class. *)
Record kwargs := {
  kw_output_path : value;
  kw_train_instance_type : string;
  kw_region_name : string;
}.

(** Modelled from the spec: [sagemaker.estimator.Framework.__init__] is not
    under src/. The spec gives the estimator configuration as the record of the
    arguments, constructed once, with [hyperparameters] a mapping (empty when
    not given) and [image_reference] kept verbatim. *)
Definition Framework_init (entry_point : string) (source_dir : option string)
    (hyperparameters : option (gmap string value)) (image_name : option string)
    (metric_definitions : option (list (string * string))) (kw : kwargs) : Framework :=
  {| entry_point := entry_point;
     source_dir := source_dir;
     _hyperparameters := default ∅ hyperparameters;
     image_name := image_name;
     metric_definitions := metric_definitions;
     output_path := kw_output_path kw;
     train_instance_type := kw_train_instance_type kw;
     region_name := kw_region_name kw |}.

(** Modelled from the spec: [Framework._json_encode_hyperparameters] is not
    under src/. The spec gives the hyperparameter wire mapping as string keys to
    JSON-string values: every value is encoded with [json.dumps]. *)
Definition _json_encode_hyperparameters (hp : gmap string value)
    : result (gmap string string) :=
  kvs ← mapM (fun kv : string * value => s ← Json.dumps kv.2; mret (kv.1, s))
        (map_to_list hp);
  mret (list_to_map kvs).

(** Modelled from the spec: [Framework.hyperparameters] is not under src/; it
    is the wire mapping of the hyperparameters accumulated so far. *)
Definition Framework_hyperparameters (self : Framework) : result (gmap string string) :=
  _json_encode_hyperparameters (_hyperparameters self).

(** Truthiness of an optional [str] and of a dict. *)
Definition str_truthy (o : option string) : bool :=
  match o with
  | Some s => negb (String.eqb s "")
  | None => false
  end.

Definition dict_truthy {V} (m : gmap string V) : bool :=
  negb (Nat.eqb (size m) 0).

(** [d.get(key, None)] and [d[key]] with an arbitrary hashable key: only a
    [str] is equal to a string key. *)
Definition dict_get {V} (d : gmap string V) (key : value) : option V :=
  match key with
  | VStr s => d !! s
  | _ => None
  end.

Definition dict_getitem {V} (d : gmap string V) (key : value) : result V :=
  match dict_get d key with
  | Some v => Ok v
  | None => Raise (KeyError (str key))
  end.

(** [d.pop(key)] *)
Definition dict_pop {V} (d : gmap string V) (key : string) : result (V * gmap string V) :=
  match d !! key with
  | Some v => Ok (v, delete key d)
  | None => Raise (KeyError key)
  end.

Definition of_option_str (o : option string) : value :=
  match o with
  | Some s => VStr s
  | None => VNone
  end.

End Estimator.

(* ===================================================================== *)
(** ** [sagemaker/mxnet/estimator.py]                                      *)
(* ===================================================================== *)

Module MXNet.
Import Py Estimator.

Definition __framework_name__ : string := "mxnet".
Definition _LOWEST_SCRIPT_MODE_VERSION : list string := ["1"; "3"].
Definition LATEST_VERSION : string := "1.4".

Record MXNet := {
  base : Framework;
  framework_version : string;
  py_version : string;
}.

Section WithImports.
Context `{Imports}.

(** [MXNet._configure_distribution]; the assignment to
    [self._hyperparameters] gives the updated object. *)
Definition _configure_distribution (self : MXNet)
    (distributions : option (gmap string (gmap string value))) : result MXNet :=
  match distributions with
  | None => Ok self
  | Some distributions =>
      if list_lt (split "." (framework_version self)) _LOWEST_SCRIPT_MODE_VERSION then
        Raise (ValueError
          ("The distributions option is valid for only versions "
             +:+ join "." _LOWEST_SCRIPT_MODE_VERSION +:+ " and higher"))
      else
        match distributions !! "parameter_server" with
        | Some ps =>
            let enabled := default (VBool false) (ps !! "enabled") in
            let b := base self in
            Ok {| base :=
                    {| entry_point := entry_point b;
                       source_dir := source_dir b;
                       _hyperparameters :=
                         <[LAUNCH_PS_ENV_NAME := enabled]> (_hyperparameters b);
                       image_name := image_name b;
                       metric_definitions := metric_definitions b;
                       output_path := output_path b;
                       train_instance_type := train_instance_type b;
                       region_name := region_name b |};
                  framework_version := framework_version self;
                  py_version := py_version self |}
        | None => Ok self
        end
  end.

(** [MXNet.__init__] *)
Definition __init__ (entry_point : string) (source_dir : option string)
    (hyperparameters : option (gmap string value)) (py_version : string)
    (framework_version : option string) (image_name : option string)
    (distributions : option (gmap string (gmap string value))) (kw : kwargs)
    : M MXNet :=
  (if framework_version is None
   then warning (empty_framework_version_warning MXNET_VERSION LATEST_VERSION)
   else mret tt);;
  let fv := if str_truthy framework_version
            then default MXNET_VERSION framework_version else MXNET_VERSION in
  let b := Framework_init entry_point source_dir hyperparameters image_name None kw in
  (if String.eqb py_version "py2"
   then warning (python_deprecation_warning __framework_name__)
   else mret tt);;
  lift (_configure_distribution
          {| base := b; framework_version := fv; py_version := py_version |}
          distributions).

(** [MXNet._prepare_init_params_from_job_description] *)
Definition _prepare_init_params_from_job_description (details : job_details)
    (model_channel_name : option string) : result (gmap string value) :=
  init_params ← base_prepare_init_params_from_job_description details model_channel_name;
  '(image, init_params) ← dict_pop init_params "image";
  match image with
  | VStr image_name =>
      let '(framework, py_version, tag, _) := framework_name_from_image image_name in
      if negb (str_truthy framework) then
        Ok (<["image_name" := VStr image_name]> init_params)
      else
        let init_params := <["py_version" := of_option_str py_version]> init_params in
        match tag with
        | Some tag =>
            let init_params :=
              <["framework_version" :=
                  if String.eqb tag "1.0" then VStr "0.12"
                  else of_option_str (framework_version_from_tag tag)]> init_params in
            training_job_name ← dict_getitem init_params (VStr "base_job_name");
            if negb (bool_decide (framework = Some __framework_name__)) then
              Raise (ValueError ("Training job: " +:+ str training_job_name
                                   +:+ " didn't use image for requested framework"))
            else Ok init_params
        | None => Raise (TypeError "expected string or bytes-like object")
        end
  | _ => Raise (TypeError "expected string or bytes-like object")
  end.

End WithImports.
End MXNet.

(* ===================================================================== *)
(** ** [sagemaker/rl/estimator.py]                                         *)
(* ===================================================================== *)

Module RL.
Import Py Estimator.

Definition SAGEMAKER_ESTIMATOR : string := "sagemaker_estimator".
Definition SAGEMAKER_ESTIMATOR_VALUE : string := "RLEstimator".
Definition PYTHON_VERSION : string := "py3".

(** The nested dict [TOOLKIT_FRAMEWORK_VERSION_MAP]:
    toolkit, then toolkit version, then framework, to framework version. *)
Definition TOOLKIT_FRAMEWORK_VERSION_MAP : gmap string (gmap string (gmap string string)) :=
  <["coach" :=
      <["0.10.1" := {["tensorflow" := "1.11"]}]>
      (<["0.10" := {["tensorflow" := "1.11"]}]>
      (<["0.11.0" := <["tensorflow" := "1.11"]> {["mxnet" := "1.3"]}]>
      (<["0.11.1" := {["tensorflow" := "1.12"]}]>
      {["0.11" := <["tensorflow" := "1.12"]> {["mxnet" := "1.3"]}]})))]>
  {["ray" :=
      <["0.5.3" := {["tensorflow" := "1.11"]}]>
      (<["0.5" := {["tensorflow" := "1.11"]}]>
      (<["0.6.5" := {["tensorflow" := "1.12"]}]>
      {["0.6" := {["tensorflow" := "1.12"]}]}))]}.

(** [member.value] for the two enumerations. *)
Definition toolkit_value (t : RLToolkit) : string :=
  match t with COACH => "coach" | RAY => "ray" end.
Definition framework_value (f : RLFramework) : string :=
  match f with TENSORFLOW => "tensorflow" | MXNET => "mxnet" end.

(** [x.value] on an arbitrary object. *)
Definition attr_value (x : value) : result string :=
  match x with
  | VToolkit t => Ok (toolkit_value t)
  | VFramework f => Ok (framework_value f)
  | _ => Raise (AttributeError "object has no attribute 'value'")
  end.

(** [RLToolkit(x)] and [RLFramework(x)]: the member with that value. *)
Definition RLToolkit_of (x : option string) : result RLToolkit :=
  match x with
  | Some "coach" => Ok COACH
  | Some "ray" => Ok RAY
  | _ => Raise (ValueError (str (of_option_str x) +:+ " is not a valid RLToolkit"))
  end.
Definition RLFramework_of (x : option string) : result RLFramework :=
  match x with
  | Some "tensorflow" => Ok TENSORFLOW
  | Some "mxnet" => Ok MXNET
  | _ => Raise (ValueError (str (of_option_str x) +:+ " is not a valid RLFramework"))
  end.

(** [x in RLToolkit] and [x in RLFramework], as [EnumMeta.__contains__] of the
    interpreters the package supports decides it: [x] is an instance of the
    class (an object that is no enum member is not in it). *)
Definition in_RLToolkit (x : value) : bool :=
  match x with VToolkit _ => true | _ => false end.
Definition in_RLFramework (x : value) : bool :=
  match x with VFramework _ => true | _ => false end.

(** The compiled pattern of [_toolkit_and_version_from_tag]: start of text,
    group 1 upper-case letters or lower-case letters, group 2 a digit and then
    anything, a dash, group 3 cpu or gpu, a dash, group 4 py2 or py3, end. *)
Definition tag_pattern : Re.regex :=
  Re.Cat Re.Start
  (Re.Cat (Re.Group 1 (Re.Alt (Re.StarClass Re.upper) (Re.StarClass Re.lower)))
  (Re.Cat (Re.Group 2 (Re.Cat (Re.Class Re.digit) (Re.StarClass Re.dot)))
  (Re.Cat (Re.Lit "-")
  (Re.Cat (Re.Group 3 (Re.Alt (Re.Lit "cpu") (Re.Lit "gpu")))
  (Re.Cat (Re.Lit "-")
  (Re.Cat (Re.Group 4 (Re.Alt (Re.Lit "py2") (Re.Lit "py3")))
   Re.End_)))))).

(** [RLEstimator._toolkit_and_version_from_tag]: groups 1 and 2 of the match,
    or the pair [(None, None)]. *)
Definition _toolkit_and_version_from_tag (image_tag : string)
    : option string * option string :=
  match Re.match_ tag_pattern image_tag with
  | Some tag_match => (Re.group tag_match 1, Re.group tag_match 2)
  | None => (None, None)
  end.

(** [RLEstimator._validate_framework_format] *)
Definition _validate_framework_format (framework : value) : result unit :=
  if truthy framework && negb (in_RLFramework framework) then
    Raise (ValueError
      ("Invalid type: " +:+ str framework +:+ ", valid RL frameworks types are: "
       +:+ "[[<RLFramework.TENSORFLOW: 'tensorflow'>, <RLFramework.MXNET: 'mxnet'>]]"))
  else Ok tt.

(** [RLEstimator._validate_toolkit_format] *)
Definition _validate_toolkit_format (toolkit : value) : result unit :=
  if truthy toolkit && negb (in_RLToolkit toolkit) then
    Raise (ValueError
      ("Invalid type: " +:+ str toolkit +:+ ", valid RL toolkits types are: "
       +:+ "[[<RLToolkit.COACH: 'coach'>, <RLToolkit.RAY: 'ray'>]]"))
  else Ok tt.

(** The names appended to [not_found_args] (with [keep := negb]) and to
    [found_args] (with [keep := id]), in the order of the three tests. *)
Definition args_where (keep : bool -> bool) (toolkit toolkit_version framework : value)
    : list string :=
  (if keep (truthy toolkit) then ["toolkit"] else [])
  ++ (if keep (truthy toolkit_version) then ["toolkit_version"] else [])
  ++ (if keep (truthy framework) then ["framework"] else []).

(** [RLEstimator._validate_images_args] *)
Definition _validate_images_args (toolkit toolkit_version framework : value)
    (image_name : option string) : M unit :=
  lift (_validate_toolkit_format toolkit);;
  lift (_validate_framework_format framework);;
  if negb (str_truthy image_name) then
    let not_found_args := args_where negb toolkit toolkit_version framework in
    match not_found_args with
    | [] => mret tt
    | _ => raise (AttributeError
             ("Please provide `" +:+ join "`, `" not_found_args
                +:+ "` or `image_name` parameter."))
    end
  else
    let found_args := args_where id toolkit toolkit_version framework in
    match found_args with
    | [] => mret tt
    | _ => warning ("Parameter `image_name` is specified, `"
                      +:+ join "`, `" found_args
                      +:+ "` are going to be ignored when choosing the image.")
    end.

(** [RLEstimator._is_combination_supported] *)
Definition _is_combination_supported (toolkit toolkit_version framework : value) : bool :=
  match dict_get TOOLKIT_FRAMEWORK_VERSION_MAP toolkit with
  | Some supported_versions =>
      if dict_truthy supported_versions then
        match dict_get supported_versions toolkit_version with
        | Some supported_frameworks =>
            dict_truthy supported_frameworks
            && match dict_get supported_frameworks framework with
               | Some fv => negb (String.eqb fv "")
               | None => false
               end
        | None => false
        end
      else false
  | None => false
  end.

(** [RLEstimator._validate_toolkit_support] *)
Definition _validate_toolkit_support (toolkit toolkit_version framework : value)
    : result unit :=
  if negb (_is_combination_supported toolkit toolkit_version framework) then
    Raise (AttributeError
      ("Provided `" +:+ str toolkit +:+ "-" +:+ str toolkit_version +:+ "` and `"
         +:+ str framework +:+ "` combination is not supported."))
  else Ok tt.

(** [RLEstimator.default_metric_definitions]; the result is [None] when the
    toolkit is neither member. *)
Definition default_metric_definitions (toolkit : value) : option (list (string * string)) :=
  match toolkit with
  | VToolkit COACH =>
      Some [("reward-training", "^Training>.*Total reward=(.*?),");
            ("reward-testing", "^Testing>.*Total reward=(.*?),")]
  | VToolkit RAY =>
      let float_regex := "[-+]?[0-9]*[.]?[0-9]+([eE][-+]?[0-9]+)?" in
      Some [("episode_reward_mean", "episode_reward_mean: (" +:+ float_regex +:+ ")");
            ("episode_reward_max", "episode_reward_max: (" +:+ float_regex +:+ ")")]
  | _ => None
  end.

(** The object: the base class attributes and the four attributes that
    [__init__] sets only when no image is given ([None] stands for unset). *)
Record RLEstimator := {
  base : Framework;
  toolkit : option string;
  toolkit_version : option value;
  framework : option string;
  framework_version : option string;
}.

(** [RLEstimator.__init__] *)
Definition __init__ (entry_point : string) (toolkit toolkit_version framework : value)
    (source_dir : option string) (hyperparameters : option (gmap string value))
    (image_name : option string) (metric_definitions : option (list (string * string)))
    (kw : kwargs) : M RLEstimator :=
  _validate_images_args toolkit toolkit_version framework image_name;;
  if negb (str_truthy image_name) then
    tk ← lift (attr_value toolkit);
    fw ← lift (attr_value framework);
    lift (_validate_toolkit_support (VStr tk) toolkit_version (VStr fw));;
    versions ← lift (dict_getitem TOOLKIT_FRAMEWORK_VERSION_MAP (VStr tk));
    frameworks ← lift (dict_getitem versions toolkit_version);
    fv ← lift (dict_getitem frameworks (VStr fw));
    let metric_definitions :=
      match metric_definitions with
      | None | Some [] => default_metric_definitions toolkit
      | _ => metric_definitions
      end in
    mret {| base := Framework_init entry_point source_dir hyperparameters
                      image_name metric_definitions kw;
            toolkit := Some tk;
            toolkit_version := Some toolkit_version;
            framework := Some fw;
            framework_version := Some fv |}
  else
    mret {| base := Framework_init entry_point source_dir hyperparameters
                      image_name metric_definitions kw;
            toolkit := None;
            toolkit_version := None;
            framework := None;
            framework_version := None |}.

(** Reading an attribute that [__init__] may have left unset. *)
Definition getattr {A} (name : string) (a : option A) : result A :=
  match a with
  | Some x => Ok x
  | None => Raise (AttributeError
              ("'RLEstimator' object has no attribute '" +:+ name +:+ "'"))
  end.

(** [RLEstimator._image_version] *)
Definition _image_version (self : RLEstimator) : result string :=
  tk ← getattr "toolkit" (toolkit self);
  tv ← getattr "toolkit_version" (toolkit_version self);
  mret (tk +:+ str tv).

(** [RLEstimator._image_framework] *)
Definition _image_framework (self : RLEstimator) : result string :=
  fw ← getattr "framework" (framework self);
  mret ("rl-" +:+ fw).

(** Modelled from the spec: [fw_utils.create_image_uri] is not under src/. The
    spec gives the tag of a managed image as the version, then the device
    ([cpu] or [gpu]), then the python version, joined by dashes. *)
Definition image_tag (version device py_version : string) : string :=
  version +:+ "-" +:+ device +:+ "-" +:+ py_version.

(** The tag of the image that [train_image] asks for, given the device that
    the instance type selects. *)
Definition would_be_tag (self : RLEstimator) (device : string) : result string :=
  version ← _image_version self;
  mret (image_tag version device PYTHON_VERSION).

Section WithImports.
Context `{Imports}.

(** [RLEstimator.train_image] *)
Definition train_image (self : RLEstimator) : result string :=
  if str_truthy (image_name (base self)) then
    Ok (default "" (image_name (base self)))
  else
    fw ← _image_framework self;
    version ← _image_version self;
    mret (create_image_uri (region_name (base self)) fw
            (train_instance_type (base self)) version PYTHON_VERSION).

(** [RLEstimator.hyperparameters] *)
Definition hyperparameters (self : RLEstimator) : result (gmap string string) :=
  hyperparameters ← Framework_hyperparameters (base self);
  let additional_hyperparameters : gmap string value :=
    <[SAGEMAKER_ESTIMATOR := VStr SAGEMAKER_ESTIMATOR_VALUE]>
      {[SAGEMAKER_OUTPUT_LOCATION := output_path (base self)]} in
  encoded ← _json_encode_hyperparameters additional_hyperparameters;
  mret (encoded ∪ hyperparameters).

(** [RLEstimator._prepare_init_params_from_job_description] *)
Definition _prepare_init_params_from_job_description (details : job_details)
    (model_channel_name : option string) : result (gmap string value) :=
  init_params ← base_prepare_init_params_from_job_description details model_channel_name;
  '(image, init_params) ← dict_pop init_params "image";
  match image with
  | VStr image_name =>
      let '(framework, _, tag, _) := framework_name_from_image image_name in
      if negb (str_truthy framework) then
        Ok (<["image_name" := VStr image_name]> init_params)
      else
        match tag with
        | Some tag =>
            let '(toolkit, toolkit_version) := _toolkit_and_version_from_tag tag in
            if negb (_is_combination_supported (of_option_str toolkit)
                       (of_option_str toolkit_version) (of_option_str framework)) then
              training_job_name ← dict_getitem init_params (VStr "base_job_name");
              Raise (ValueError ("Training job: " +:+ str training_job_name
                                   +:+ " didn't use image for requested framework"))
            else
              tk ← RLToolkit_of toolkit;
              let init_params := <["toolkit" := VToolkit tk]> init_params in
              let init_params :=
                <["toolkit_version" := of_option_str toolkit_version]> init_params in
              fw ← RLFramework_of framework;
              Ok (<["framework" := VFramework fw]> init_params)
        | None => Raise (TypeError "expected string or bytes-like object")
        end
  | _ => Raise (TypeError "expected string or bytes-like object")
  end.

End WithImports.
End RL.

(* ===================================================================== *)
(** ** Definitions used to state the properties                            *)
(* ===================================================================== *)

Module Props.
Import Py Estimator.

(** The elements handed to [CategoricalParameter.__init__], in order. *)
Definition supplied (vs : Ranges.values_arg) : list value :=
  match vs with
  | Ranges.AList l => l
  | Ranges.AObject v => [v]
  end.

(** The entry of the support table for a triple, if the table has one. *)
Definition table_entry (tk tv fw : string) : option string :=
  versions ← RL.TOOLKIT_FRAMEWORK_VERSION_MAP !! tk;
  frameworks ← versions !! tv;
  frameworks !! fw.

(** The rows of the support table, written out. *)
Definition table_rows : list (string * string * string * string) :=
  [ ("coach", "0.10.1", "tensorflow", "1.11");
    ("coach", "0.10", "tensorflow", "1.11");
    ("coach", "0.11.0", "tensorflow", "1.11");
    ("coach", "0.11.0", "mxnet", "1.3");
    ("coach", "0.11.1", "tensorflow", "1.12");
    ("coach", "0.11", "tensorflow", "1.12");
    ("coach", "0.11", "mxnet", "1.3");
    ("ray", "0.5.3", "tensorflow", "1.11");
    ("ray", "0.5", "tensorflow", "1.11");
    ("ray", "0.6.5", "tensorflow", "1.12");
    ("ray", "0.6", "tensorflow", "1.12") ].

(** The tags that the pattern of the tag parser describes: letters (all
    upper case or all lower case, possibly none), a version that starts with a
    digit and has no line break, a dash, the device, a dash, the python
    version, and at most one final line break. *)
Definition tag_shape (tag letters version : string) : Prop :=
  exists device py eol,
    tag = letters +:+ version +:+ "-" +:+ device +:+ "-" +:+ py +:+ eol
    /\ (Re.all_in Re.upper letters = true \/ Re.all_in Re.lower letters = true)
    /\ (exists d rest, version = String d rest
                       /\ Re.digit d = true /\ Re.all_in Re.dot rest = true)
    /\ (device = "cpu" \/ device = "gpu")
    /\ (py = "py2" \/ py = "py3")
    /\ (eol = "" \/ eol = String Re.newline "").

(** An environment for the imported names, used for the concrete instances. *)
Definition sample_imports : Imports :=
  {| job_details := string;
     MXNET_VERSION := "1.2";
     LAUNCH_PS_ENV_NAME := "sagemaker_parameter_server_enabled";
     SAGEMAKER_OUTPUT_LOCATION := "sagemaker_s3_output";
     empty_framework_version_warning := fun default latest =>
       "No framework_version specified, defaulting to version " +:+ default;
     python_deprecation_warning := fun framework =>
       "The Python 2 " +:+ framework +:+ " images will be soon deprecated";
     framework_name_from_image := fun image =>
       (Some "pytorch", Some "py3", Some "1.0.0-cpu-py3", None);
     framework_version_from_tag := fun tag => Some "1.0.0";
     create_image_uri := fun region framework instance_type version py =>
       region +:+ "/sagemaker-" +:+ framework +:+ ":" +:+ version +:+ "-cpu-" +:+ py;
     base_prepare_init_params_from_job_description := fun details channel =>
       Ok (<["image" := VStr details]> {["base_job_name" := VStr "job-1"]}) |}.

(** The object that [RLEstimator.__init__] builds when no image is given and
    the triple is in the table with framework version [fv]. *)
Definition estimator_for (ep : string) (t : RLToolkit) (tv : string) (f : RLFramework)
    (sd : option string) (hp : option (gmap string value)) (image : option string)
    (md : option (list (string * string))) (kw : kwargs) (fv : string)
    : RL.RLEstimator :=
  {| RL.base :=
       Framework_init ep sd hp image
         (match md with
          | None | Some [] => RL.default_metric_definitions (VToolkit t)
          | _ => md
          end) kw;
     RL.toolkit := Some (RL.toolkit_value t);
     RL.toolkit_version := Some (VStr tv);
     RL.framework := Some (RL.framework_value f);
     RL.framework_version := Some fv |}.

(** The object built when an image is given: no toolkit attribute is set. *)
Definition estimator_with_image (ep : string) (sd : option string)
    (hp : option (gmap string value)) (image : string)
    (md : option (list (string * string))) (kw : kwargs) : RL.RLEstimator :=
  {| RL.base := Framework_init ep sd hp (Some image) md kw;
     RL.toolkit := None;
     RL.toolkit_version := None;
     RL.framework := None;
     RL.framework_version := None |}.

Definition sample_kwargs : kwargs :=
  {| kw_output_path := VStr "s3://bucket/out";
     kw_train_instance_type := "ml.c4.xlarge";
     kw_region_name := "us-west-2" |}.

(** The tag of the image that the estimator built from a triple would ask
    for, on a given device. *)
Definition tag_of_triple (t : RLToolkit) (tv : string) (f : RLFramework)
    (device : string) : result string :=
  est ← (RL.__init__ "train.py" (VToolkit t) (VStr tv) (VFramework f)
           None None None None sample_kwargs []).1;
  RL.would_be_tag est device.

End Props.

(* ===================================================================== *)
(** ** [sagemaker/parameter.py], the other methods                         *)
(* ===================================================================== *)

Module RangeMethods.
Import Py.

(** [CategoricalParameter.is_valid] on an arbitrary object, [value in
    self.values]: the elements of [values] are [str]s, and of the objects
    modelled only a [str] is equal to a [str]. *)
Definition is_valid (self : Ranges.CategoricalParameter) (value : Py.value) : bool :=
  match value with
  | VStr s => Ranges.categorical_is_valid self s
  | _ => false
  end.

(** The dict that [ParameterRange.as_tuning_range] returns. *)
Record tuning_range := {
  Name : string;
  MinValue : string;
  MaxValue : string;
  ScalingType : string;
}.

Section WithFloatStr.
(** [str] of a [float] is the interpreter's shortest-repr printing, taken as
    it is. *)
Context (float_str : Q -> string).

(** [to_str] on a number. *)
Definition number_to_str (n : Ranges.number) : string :=
  match n with
  | Ranges.NInt z => Ranges.to_str (VInt z)
  | Ranges.NFloat q => float_str q
  end.

(** [ParameterRange.as_tuning_range] *)
Definition as_tuning_range (self : Ranges.ParameterRange) (name : string) : tuning_range :=
  {| Name := name;
     MinValue := number_to_str (Ranges.min_value self);
     MaxValue := number_to_str (Ranges.max_value self);
     ScalingType := Ranges.scaling_type self |}.

End WithFloatStr.
End RangeMethods.

(* ===================================================================== *)
(** ** [sagemaker/rl/estimator.py], [create_model]                         *)
(* ===================================================================== *)

Module RLModel.
Import Py Estimator.

Section WithVpc.
(** The type of a VPC configuration, which the method only passes on. *)
Context {vpc : Type}.

(** What [create_model] reads from the base class besides the attributes of
    [Framework]: the attributes [role], [_current_job_name],
    [container_log_level], [code_location], [dependencies],
    [enable_cloudwatch_metrics], the property [model_data] and the methods
    [get_vpc_config] and [_model_source_dir]. None of them is under src/; the
    method is verified for whatever they give. *)
Record hosting := {
  model_data : string;
  estimator_role : string;
  _current_job_name : option string;
  container_log_level : Z;
  get_vpc_config : vpc -> vpc;
  code_location : option string;
  estimator_dependencies : list string;
  enable_cloudwatch_metrics : bool;
  _model_source_dir : option string;
}.

(** The keyword arguments [base_args] and [extended_args] (the latter updated
    with the former; their keys are disjoint). *)
Record base_args := {
  b_model_data : string;
  b_role : string;
  b_image : option string;
  b_name : option string;
  b_container_log_level : Z;
  b_vpc_config : vpc;
}.

Record extended_args := {
  e_entry_point : string;
  e_source_dir : option string;
  e_code_location : option string;
  e_dependencies : list string;
  e_enable_cloudwatch_metrics : bool;
  e_base : base_args;
}.

(** The model objects that the method constructs, by class and arguments. *)
Inductive model :=
| FrameworkModel (args : extended_args)
| tfsModel (framework_version : string) (args : base_args)
| MXNetModel (framework_version py_version : string) (args : extended_args).

(** How a call ends: with a returned object ([None] when the method falls off
    its end), with one of the exceptions of [exn], or with
    [NotImplementedError]. *)
Inductive outcome :=
| Returned (m : option model)
| Raised (e : exn)
| RaisedNotImplemented (msg : string).

Definition list_truthy {A} (o : option (list A)) : bool :=
  match o with
  | Some (_ :: _) => true
  | _ => false
  end.

(** [RLEstimator.create_model] *)
Definition create_model (self : RL.RLEstimator) (h : hosting) (role : option string)
    (vpc_config_override : vpc) (entry_point source_dir : option string)
    (dependencies : option (list string)) : outcome :=
  let base_args :=
    {| b_model_data := model_data h;
       b_role := if str_truthy role then default "" role else estimator_role h;
       b_image := image_name (RL.base self);
       b_name := _current_job_name h;
       b_container_log_level := container_log_level h;
       b_vpc_config := get_vpc_config h vpc_config_override |} in
  if negb (str_truthy entry_point) && (str_truthy source_dir || list_truthy dependencies)
  then Raised (AttributeError "Please provide an `entry_point`.")
  else
    let entry_point :=
      if str_truthy entry_point then default "" entry_point
      else Estimator.entry_point (RL.base self) in
    let source_dir := if str_truthy source_dir then source_dir else _model_source_dir h in
    let dependencies :=
      if list_truthy dependencies then default [] dependencies
      else estimator_dependencies h in
    let extended_args :=
      {| e_entry_point := entry_point;
         e_source_dir := source_dir;
         e_code_location := code_location h;
         e_dependencies := dependencies;
         e_enable_cloudwatch_metrics := enable_cloudwatch_metrics h;
         e_base := base_args |} in
    if str_truthy (image_name (RL.base self)) then
      Returned (Some (FrameworkModel extended_args))
    else
      match RL.getattr "toolkit" (RL.toolkit self) with
      | Raise e => Raised e
      | Ok toolkit =>
          if String.eqb toolkit (RL.toolkit_value RAY) then
            RaisedNotImplemented
              ("Automatic deployment of Ray models is not currently available."
               +:+ " Train policy parameters are available in model checkpoints"
               +:+ " in the TrainingJob output.")
          else
            match RL.getattr "framework" (RL.framework self) with
            | Raise e => Raised e
            | Ok framework =>
                if String.eqb framework (RL.framework_value TENSORFLOW) then
                  match RL.getattr "framework_version" (RL.framework_version self) with
                  | Raise e => Raised e
                  | Ok fv => Returned (Some (tfsModel fv base_args))
                  end
                else if String.eqb framework (RL.framework_value MXNET) then
                  match RL.getattr "framework_version" (RL.framework_version self) with
                  | Raise e => Raised e
                  | Ok fv => Returned (Some (MXNetModel fv RL.PYTHON_VERSION extended_args))
                  end
                else Returned None
            end
      end.

End WithVpc.
Arguments hosting : clear implicits.
Arguments base_args : clear implicits.
Arguments extended_args : clear implicits.
Arguments model : clear implicits.
Arguments outcome : clear implicits.

End RLModel.

(* ===================================================================== *)
(** ** [sagemaker/pytorch/model.py]                                        *)
(* ===================================================================== *)

Module PyTorch.
Import Py.

Definition __framework_name__ : string := "pytorch".

(** The names that [pytorch/model.py] takes from modules that are not under
    src/: [fw_utils.create_image_uri] (with the accelerator type),
    [fw_utils.model_code_key_prefix], the upper-cased constant
    [MODEL_SERVER_WORKERS_PARAM_NAME], the deprecation text, and from the base
    class [FrameworkModel] the environment that [_framework_env_vars] gives
    once [_upload_code] has run with a key prefix. *)
Class ModelImports := {
  create_image_uri :
    string -> string -> string -> string -> string -> option string -> string;
  model_code_key_prefix : option string -> option string -> string -> string;
  MODEL_SERVER_WORKERS_PARAM_NAME_upper : string;
  python_deprecation_warning : string -> string;
  framework_env_vars_after_upload : string -> gmap string string;
}.

(** The object: the attributes of the base class that the methods read, and
    the three that [__init__] sets. *)
Record PyTorchModel := {
  model_data : string;
  image : option string;
  role : string;
  entry_point : string;
  env : gmap string string;
  name : option string;
  key_prefix : option string;
  region_name : string;
  py_version : string;
  framework_version : string;
  model_server_workers : option Z;
}.

(** The keyword arguments that reach the base class. *)
Record kwargs := {
  kw_env : option (gmap string string);
  kw_name : option string;
  kw_key_prefix : option string;
  kw_region_name : string;
}.

(** Modelled from the spec: [sagemaker.session.container_def] is not under
    src/; the spec gives the container definition as the image, the model data
    location and the environment mapping. *)
Record container_def := {
  Image : string;
  ModelDataUrl : string;
  Environment : gmap string string;
}.

Section WithImports.
Context `{ModelImports}.

(** [PyTorchModel.__init__]; the base class stores its arguments, with an
    empty environment when none is given. *)
Definition __init__ (model_data role entry_point : string) (image : option string)
    (py_version framework_version : string) (model_server_workers : option Z)
    (kw : kwargs) : M PyTorchModel :=
  (if String.eqb py_version "py2"
   then warning (python_deprecation_warning __framework_name__)
   else mret tt);;
  mret {| model_data := model_data;
          image := image;
          role := role;
          entry_point := entry_point;
          env := default ∅ (kw_env kw);
          name := kw_name kw;
          key_prefix := kw_key_prefix kw;
          region_name := kw_region_name kw;
          py_version := py_version;
          framework_version := framework_version;
          model_server_workers := model_server_workers |}.

(** Truthiness of an optional [int]. *)
Definition int_truthy (o : option Z) : bool :=
  match o with
  | Some z => negb (z =? 0)%Z
  | None => false
  end.

(** [PyTorchModel.prepare_container_def] *)
Definition prepare_container_def (self : PyTorchModel) (instance_type : string)
    (accelerator_type : option string) : container_def :=
  let deploy_image :=
    if Estimator.str_truthy (image self) then default "" (image self)
    else create_image_uri (region_name self) __framework_name__ instance_type
           (framework_version self) (py_version self) accelerator_type in
  let deploy_key_prefix := model_code_key_prefix (key_prefix self) (name self) deploy_image in
  let deploy_env := framework_env_vars_after_upload deploy_key_prefix ∪ env self in
  let deploy_env :=
    if int_truthy (model_server_workers self)
    then <[MODEL_SERVER_WORKERS_PARAM_NAME_upper :=
             str (VInt (default 0%Z (model_server_workers self)))]> deploy_env
    else deploy_env in
  {| Image := deploy_image;
     ModelDataUrl := model_data self;
     Environment := deploy_env |}.

End WithImports.
End PyTorch.

(* ===================================================================== *)
(** ** More definitions used to state properties                           *)
(* ===================================================================== *)

Module MoreProps.
Import Py Estimator.

(** The names of the arguments among toolkit, toolkit_version and framework
    that are given ([want := true]) or not given ([want := false]), in that
    order; an argument is given when it is truthy. *)
Definition names_where (want : bool) (toolkit toolkit_version framework : value)
    : list string :=
  map fst
    (List.filter (fun p : string * value => Bool.eqb (truthy p.2) want)
       [("toolkit", toolkit); ("toolkit_version", toolkit_version);
        ("framework", framework)]).

(** A character of the printable ASCII range. *)
Definition printable (c : ascii) : bool :=
  (32 <=? N_of_ascii c)%N && (N_of_ascii c <=? 126)%N.

(** The text of a version with the given numeric fields. *)
Definition version_text (fields : list nat) : string :=
  join "." (map pretty fields).

(** Numeric comparison of (major, minor) with the lowest version 1.3. *)
Definition below_1_3 (major minor : nat) : bool :=
  (major <? 1)%nat || ((major =? 1)%nat && (minor <? 3)%nat).

(** [json.dumps] succeeds on the object. *)
Definition serializable (v : value) : bool :=
  match v with
  | VToolkit _ | VFramework _ => false
  | _ => true
  end.

(** The text that [json.dumps] gives for a serializable object. *)
Definition dumps_text (v : value) : string :=
  match Json.dumps v with
  | Ok s => s
  | Raise _ => ""
  end.

Definition sample_hosting : RLModel.hosting unit :=
  {| RLModel.model_data := "s3://bucket/model.tar.gz";
     RLModel.estimator_role := "EstimatorRole";
     RLModel._current_job_name := Some "job-1";
     RLModel.container_log_level := 20%Z;
     RLModel.get_vpc_config := fun v => v;
     RLModel.code_location := None;
     RLModel.estimator_dependencies := [];
     RLModel.enable_cloudwatch_metrics := false;
     RLModel._model_source_dir := Some "s3://bucket/job-1/source" |}.

Definition sample_model_imports : PyTorch.ModelImports :=
  {| PyTorch.create_image_uri := fun region framework instance version py accel =>
       region +:+ "/sagemaker-" +:+ framework +:+ ":" +:+ version +:+ "-cpu-" +:+ py;
     PyTorch.model_code_key_prefix := fun prefix name image => default "model" name;
     PyTorch.MODEL_SERVER_WORKERS_PARAM_NAME_upper := "SAGEMAKER_MODEL_SERVER_WORKERS";
     PyTorch.python_deprecation_warning := fun framework =>
       "The Python 2 " +:+ framework +:+ " images will be soon deprecated";
     PyTorch.framework_env_vars_after_upload := fun prefix =>
       {["SAGEMAKER_SUBMIT_DIRECTORY" := prefix]} |}.

(** Environments in which every image decodes to a fixed tuple. *)
Definition imports_decoding
    (decoded : option string * option string * option string * option string)
    (params : gmap string value) : Imports :=
  {| job_details := string;
     MXNET_VERSION := "1.2";
     LAUNCH_PS_ENV_NAME := "sagemaker_parameter_server_enabled";
     SAGEMAKER_OUTPUT_LOCATION := "sagemaker_s3_output";
     empty_framework_version_warning := fun default latest =>
       "No framework_version specified, defaulting to version " +:+ default;
     python_deprecation_warning := fun framework =>
       "The Python 2 " +:+ framework +:+ " images will be soon deprecated";
     framework_name_from_image := fun image => decoded;
     framework_version_from_tag := fun tag => Some "1.4.0";
     create_image_uri := fun region framework instance_type version py =>
       region +:+ "/sagemaker-" +:+ framework +:+ ":" +:+ version +:+ "-cpu-" +:+ py;
     base_prepare_init_params_from_job_description := fun details channel =>
       Ok (<["image" := VStr details]> params) |}.

Definition sample_params : gmap string value :=
  <["base_job_name" := VStr "job-1"]> {["role" := VStr "SageMakerRole"]}.

(** The triple that a tag and a framework name stand for: the toolkit and
    version that the tag parser reads, when the support table has an entry for
    them with that framework. *)
Definition decoded_triple (tag fw : string) : option (RLToolkit * string * RLFramework) :=
  match RL._toolkit_and_version_from_tag tag with
  | (Some tk, Some tv) =>
      match Props.table_entry tk tv fw, RL.RLToolkit_of (Some tk),
            RL.RLFramework_of (Some fw) with
      | Some _, Ok t, Ok f => Some (t, tv, f)
      | _, _, _ => None
      end
  | _ => None
  end.

End MoreProps.

(* ===================================================================== *)
(** ** Hyperparameter ranges                                               *)
(* ===================================================================== *)

Import Py Estimator Props.

(** C9. For a continuous or integer range built from [(min_value, max_value)]
    and every value [v], [is_valid v] is true exactly when
    [min_value <= v <= max_value], and false exactly when [v < min_value] or
    [v > max_value]. *)
Theorem is_valid_iff_in_closed_interval :
  forall (lo hi v : Ranges.number) (scaling : option string),
    let r := Ranges.ParameterRange_init lo hi scaling in
    (Ranges.is_valid r v = true
       <-> (Ranges.to_Q lo <= Ranges.to_Q v)%Q /\ (Ranges.to_Q v <= Ranges.to_Q hi)%Q)
    /\ (Ranges.is_valid r v = false
       <-> (Ranges.to_Q v < Ranges.to_Q lo)%Q \/ (Ranges.to_Q hi < Ranges.to_Q v)%Q)
    /\ Ranges.is_valid (Ranges.ContinuousParameter lo hi scaling) v = Ranges.is_valid r v
    /\ Ranges.is_valid (Ranges.IntegerParameter lo hi scaling) v = Ranges.is_valid r v.
Proof.
  intros lo hi v scaling r.
  assert (Hok : Ranges.is_valid r v = true
       <-> (Ranges.to_Q lo <= Ranges.to_Q v)%Q /\ (Ranges.to_Q v <= Ranges.to_Q hi)%Q).
  { unfold Ranges.is_valid, Ranges.ge, Ranges.le; simpl.
    rewrite andb_true_iff, !Qle_bool_iff. reflexivity. }
  split; [exact Hok|]. split; [|split; reflexivity].
  rewrite <- not_true_iff_false, Hok. split.
  - intros Hn.
    destruct (Qlt_le_dec (Ranges.to_Q v) (Ranges.to_Q lo)) as [Hlt|Hle]; [now left|].
    destruct (Qlt_le_dec (Ranges.to_Q hi) (Ranges.to_Q v)) as [Hlt|Hle']; [now right|].
    exfalso. apply Hn. split; assumption.
  - intros [Hlt|Hlt] [H1 H2]; eapply Qlt_not_le; eassumption.
Qed.

(** C8, counterexample. The empty list is accepted and gives an empty
    [values] list, so not every constructed object has a non-empty one. *)
Lemma categorical_empty_list_gives_empty_values :
  Ranges.values (Ranges.CategoricalParameter_init (Ranges.AList [])) = []
  /\ ~ (forall vs, Ranges.values (Ranges.CategoricalParameter_init vs) <> []).
Proof.
  split; [reflexivity|].
  intros Hall. exact (Hall (Ranges.AList []) eq_refl).
Qed.

(** C8, amended. The [values] list is the string coercion of the supplied
    elements, one for one and in order: a list of length n gives n values (so
    duplicates are kept), a single object gives one value, and [values] is
    empty exactly when the empty list was supplied. *)
Theorem categorical_values_follow_input :
  forall vs : Ranges.values_arg,
    let self := Ranges.CategoricalParameter_init vs in
    Ranges.values self = map Ranges.to_str (supplied vs)
    /\ length (Ranges.values self) = length (supplied vs)
    /\ (forall i v, supplied vs !! i = Some v ->
                    Ranges.values self !! i = Some (Ranges.to_str v))
    /\ (Ranges.values self = [] <-> vs = Ranges.AList []).
Proof.
  intros vs self.
  assert (Hv : Ranges.values self = map Ranges.to_str (supplied vs)).
  { destruct vs; reflexivity. }
  split; [exact Hv|]. rewrite Hv. split; [apply length_map|]. split.
  - intros i v Hi. change (map Ranges.to_str (supplied vs)) with (Ranges.to_str <$> supplied vs).
    rewrite list_lookup_fmap, Hi. reflexivity.
  - destruct vs as [[|x l]|v]; simpl; split; intros Heq; try reflexivity; discriminate.
Qed.

(** *** Strings *)

Lemma app_cons (c : ascii) (s t : string) : String c s +:+ t = String c (s +:+ t).
Proof. reflexivity. Qed.

Lemma app_nil_l (s : string) : "" +:+ s = s.
Proof. reflexivity. Qed.

Lemma app_nil_r (s : string) : s +:+ "" = s.
Proof. induction s as [|c s IH]; [reflexivity|]. rewrite app_cons, IH. reflexivity. Qed.

Lemma app_assoc (s t u : string) : (s +:+ t) +:+ u = s +:+ (t +:+ u).
Proof.
  induction s as [|c s IH]; [reflexivity|].
  rewrite !app_cons, IH. reflexivity.
Qed.

Lemma length_app (s t : string) :
  String.length (s +:+ t) = String.length s + String.length t.
Proof.
  induction s as [|c s IH]; [reflexivity|].
  rewrite app_cons. simpl. rewrite IH. reflexivity.
Qed.

(** *** JSON strings decode to what was encoded *)

Lemma decode_body_escape_char (c : ascii) (t : string) :
  Json.decode_body (Json.escape_char c +:+ t)
  = option_map (String c) (Json.decode_body t).
Proof. destruct c as [[] [] [] [] [] [] [] []]; reflexivity. Qed.

Lemma decode_body_encode_chars (s : string) :
  Json.decode_body (Json.encode_chars s +:+ String Json.quote "") = Some s.
Proof.
  induction s as [|c s IH]; [reflexivity|].
  simpl Json.encode_chars. rewrite app_assoc, decode_body_escape_char, IH.
  reflexivity.
Qed.

Lemma loads_encode_basestring_ascii (s : string) :
  Json.loads (Json.encode_basestring_ascii s) = Some (VStr s).
Proof.
  unfold Json.loads, Json.encode_basestring_ascii.
  change (String.eqb (String Json.quote ?x) "null") with false.
  cbv beta iota.
  change (Ascii.eqb Json.quote Json.quote) with true. cbv iota.
  rewrite decode_body_encode_chars. reflexivity.
Qed.

(** C3, counterexample. An integer supplied to the constructor does not come
    back from the JSON range as an integer: it decodes to the string that
    [__init__] coerced it to. *)
Lemma json_range_of_integer_decodes_to_string :
  map Json.loads
    (Ranges.Values
       (Ranges.as_json_range (Ranges.CategoricalParameter_init (Ranges.AList [VInt 1])) "p"))
  = [Some (VStr "1")]
  /\ ~ (forall vs name,
          map Json.loads
            (Ranges.Values (Ranges.as_json_range (Ranges.CategoricalParameter_init vs) name))
          = map Some (supplied vs)).
Proof.
  split; [vm_compute; reflexivity|].
  intros Hall. specialize (Hall (Ranges.AList [VInt 1]) "p").
  vm_compute in Hall. discriminate Hall.
Qed.

(** C3, amended. Every element of [as_json_range(name)["Values"]] is a valid
    JSON document, namely [json.dumps] of the corresponding element of
    [values], and decoding the elements gives the supplied values after their
    coercion to strings, in order. *)
Theorem json_range_decodes_to_coerced_values :
  forall (vs : Ranges.values_arg) (name : string),
    let self := Ranges.CategoricalParameter_init vs in
    let range := Ranges.as_json_range self name in
    Ranges.Name range = name
    /\ map Json.loads (Ranges.Values range)
       = map (fun v => Some (VStr (Ranges.to_str v))) (supplied vs)
    /\ Forall2 (fun s doc => Json.dumps (VStr s) = Ok doc)
         (Ranges.values self) (Ranges.Values range).
Proof.
  intros vs name self range. split; [reflexivity|].
  assert (Hv : Ranges.values self = map Ranges.to_str (supplied vs)).
  { destruct vs; reflexivity. }
  unfold range, Ranges.as_json_range. simpl Ranges.Values. rewrite Hv. split.
  - rewrite !map_map. apply map_ext. intros v.
    apply loads_encode_basestring_ascii.
  - clear Hv. induction (map Ranges.to_str (supplied vs)) as [|s l IH]; simpl.
    + constructor.
    + constructor; [reflexivity|exact IH].
Qed.

(* ===================================================================== *)
(** ** The matcher finds exactly the matches of the pattern                *)
(* ===================================================================== *)

Section MatcherCorrect.
Context {R : Type}.

Lemma strip_prefix_app (l s : string) : Re.strip_prefix l (l +:+ s) = Some s.
Proof.
  induction l as [|a l IH]; [reflexivity|].
  rewrite app_cons. simpl. rewrite Ascii.eqb_refl. exact IH.
Qed.

Lemma strip_prefix_Some (l s s' : string) :
  Re.strip_prefix l s = Some s' -> s = l +:+ s'.
Proof.
  revert s. induction l as [|a l IH]; intros s Hs.
  - simpl in Hs. injection Hs as <-. reflexivity.
  - destruct s as [|b s]; [discriminate|]. simpl in Hs.
    destruct (Ascii.eqb_spec a b) as [->|]; [|discriminate].
    rewrite app_cons. f_equal. apply IH, Hs.
Qed.

Lemma star_class_sound p pos s (k : string -> nat -> string -> option R) x :
  Re.star_class p pos s k = Some x ->
  exists m s', s = m +:+ s' /\ Re.all_in p m = true
               /\ k m (pos + String.length m) s' = Some x.
Proof.
  revert pos k. induction s as [|c s IH]; intros pos k Hk; simpl in Hk.
  - exists "", "". rewrite Nat.add_0_r. auto.
  - destruct (p c) eqn:Hc.
    + destruct (Re.star_class p (S pos) s (fun m => k (String c m))) as [r|] eqn:Hr.
      * injection Hk as ->. apply IH in Hr as (m & s' & -> & Hm & Hx).
        exists (String c m), s'. simpl. rewrite Hc, Hm.
        rewrite Nat.add_succ_r. auto.
      * exists "", (String c s). rewrite Nat.add_0_r. auto.
    + exists "", (String c s). rewrite Nat.add_0_r. auto.
Qed.

Lemma star_class_fallback p pos s (k : string -> nat -> string -> option R) x :
  k "" pos s = Some x -> is_Some (Re.star_class p pos s k).
Proof.
  intros Hk. destruct s as [|c s]; simpl; [eauto|].
  destruct (p c); [|eauto].
  destruct (Re.star_class p (S pos) s (fun m => k (String c m))); eauto.
Qed.

Lemma star_class_complete p m pos s' (k : string -> nat -> string -> option R) x :
  Re.all_in p m = true ->
  k m (pos + String.length m) s' = Some x ->
  is_Some (Re.star_class p pos (m +:+ s') k).
Proof.
  revert pos k. induction m as [|c m IH]; intros pos k Hm Hk.
  - rewrite Nat.add_0_r in Hk. eapply star_class_fallback, Hk.
  - simpl in Hm. apply andb_true_iff in Hm as [Hc Hm].
    rewrite app_cons. simpl. rewrite Hc.
    simpl in Hk. rewrite Nat.add_succ_r in Hk.
    destruct (IH (S pos) (fun m => k (String c m)) Hm Hk) as [y ->]. eauto.
Qed.

End MatcherCorrect.

(** Whatever the matcher returns comes from a match of the pattern. *)
Lemma rmatch_sound {R} r : forall pos s g (k : _ -> _ -> _ -> _ -> option R) x,
  Re.rmatch r pos s g k = Some x ->
  exists m pos' s' g', Re.matches r pos s g m pos' s' g' /\ k m pos' s' g' = Some x.
Proof.
  induction r as [| |l|p|p|r1 IH1 r2 IH2|r1 IH1 r2 IH2|n r IH];
    intros pos s g k x Hx; simpl in Hx.
  - destruct (Nat.eqb_spec pos 0) as [->|]; [|discriminate].
    eauto 10 using Re.matches.
  - destruct (Re.at_end s) eqn:He; [|discriminate].
    eauto 10 using Re.matches.
  - destruct (Re.strip_prefix l s) as [s'|] eqn:Hl; [|discriminate].
    apply strip_prefix_Some in Hl as ->. eauto 10 using Re.matches.
  - destruct s as [|c s]; [discriminate|].
    destruct (p c) eqn:Hc; [|discriminate]. eauto 10 using Re.matches.
  - apply star_class_sound in Hx as (m & s' & -> & Hm & Hx).
    eauto 10 using Re.matches.
  - apply IH1 in Hx as (m1 & pos1 & s1 & g1 & H1 & Hx).
    apply IH2 in Hx as (m2 & pos2 & s2 & g2 & H2 & Hx).
    eauto 10 using Re.matches.
  - destruct (Re.rmatch r1 pos s g k) as [y|] eqn:H1.
    + injection Hx as ->. apply IH1 in H1 as (m & pos' & s' & g' & H1 & Hx).
      eauto 10 using Re.matches.
    + apply IH2 in Hx as (m & pos' & s' & g' & H2 & Hx).
      eauto 10 using Re.matches.
  - apply IH in Hx as (m & pos' & s' & g' & H1 & Hx).
    eauto 10 using Re.matches.
Qed.

(** When the pattern has a match that the continuation accepts, the matcher
    returns a result. *)
Lemma rmatch_complete {R} r pos s g m pos' s' g' :
  Re.matches r pos s g m pos' s' g' ->
  forall (k : _ -> _ -> _ -> _ -> option R) x,
    k m pos' s' g' = Some x -> is_Some (Re.rmatch r pos s g k).
Proof.
  induction 1 as [s g|pos s g He|l pos s' g|p c pos s' g Hc|p m pos s' g Hm
                 |r1 r2 pos s g m1 pos1 s1 g1 m2 pos2 s2 g2 _ IH1 _ IH2
                 |r1 r2 pos s g m pos' s' g' _ IH
                 |r1 r2 pos s g m pos' s' g' _ IH
                 |n r pos s g m pos' s' g' _ IH];
    intros k x Hk; simpl.
  - eauto.
  - rewrite He. eauto.
  - rewrite strip_prefix_app. eauto.
  - rewrite Hc. eauto.
  - eapply star_class_complete; [exact Hm|exact Hk].
  - destruct (IH2 (fun m2 pos2 s2 g2 => k (m1 +:+ m2) pos2 s2 g2) x Hk) as [y Hy].
    exact (IH1 _ y Hy).
  - destruct (IH _ _ Hk) as [y ->]. eauto.
  - destruct (Re.rmatch r1 pos s g k); eauto.
  - eapply IH, Hk.
Qed.

(* ===================================================================== *)
(** ** The image-tag parser                                                *)
(* ===================================================================== *)

Ltac invert_matches :=
  repeat match goal with
  | H : Re.matches (Re.Cat _ _) _ _ _ _ _ _ _ |- _ => inversion H; subst; clear H
  | H : Re.matches (Re.Group _ _) _ _ _ _ _ _ _ |- _ => inversion H; subst; clear H
  | H : Re.matches (Re.Alt _ _) _ _ _ _ _ _ _ |- _ => inversion H; subst; clear H
  | H : Re.matches (Re.Lit _) _ _ _ _ _ _ _ |- _ => inversion H; subst; clear H
  | H : Re.matches (Re.Class _) _ _ _ _ _ _ _ |- _ => inversion H; subst; clear H
  | H : Re.matches (Re.StarClass _) _ _ _ _ _ _ _ |- _ => inversion H; subst; clear H
  | H : Re.matches Re.Start _ _ _ _ _ _ _ |- _ => inversion H; subst; clear H
  | H : Re.matches Re.End_ _ _ _ _ _ _ _ |- _ => inversion H; subst; clear H
  end.

Lemma at_end_inv (s : string) :
  Re.at_end s = true -> s = "" \/ s = String Re.newline "".
Proof.
  destruct s as [|c [|c' s]]; simpl; intros He; try discriminate; [now left|].
  right. apply Ascii.eqb_eq in He as ->. reflexivity.
Qed.

(** Every match of the tag pattern has the shape of a tag, with groups 1 and 2
    the letters and the version. *)
Lemma tag_pattern_matches_inv tag m pos' s' (g : gmap nat string) :
  Re.matches RL.tag_pattern 0 tag ∅ m pos' s' g ->
  exists letters version,
    tag_shape tag letters version
    /\ Re.group g 1 = Some letters /\ Re.group g 2 = Some version.
Proof.
  unfold RL.tag_pattern. intros Hm. invert_matches.
  all: match goal with H : Re.at_end _ = true |- _ => apply at_end_inv in H end.
  all: match goal with
       | |- context [<[1%nat := ?l]> ∅] =>
           match goal with
           | |- context [<[2%nat := String ?d "" +:+ ?v]> _] =>
               exists l, (String d v)
           end
       end.
  all: (split; [|split; [reflexivity|reflexivity]]).
  all: unfold tag_shape.
  all: match goal with
       | |- context [?l +:+ String ?d (?v +:+ "-" +:+ ?dev +:+ "-" +:+ ?py +:+ ?eol)] =>
           exists dev, py, eol
       end.
  all: repeat split; eauto.
Qed.

(** Every tag of that shape has a match of the tag pattern. *)
Lemma tag_pattern_matches_intro tag letters version :
  tag_shape tag letters version ->
  exists m pos' s' (g : gmap nat string),
    Re.matches RL.tag_pattern 0 tag ∅ m pos' s' g.
Proof.
  intros (device & py & eol & -> & Hl & (d & rest & -> & Hd & Hrest) & Hdev & Hpy & Heol).
  assert (Hend : Re.at_end eol = true) by (destruct Heol as [->| ->]; reflexivity).
  assert (H1 : exists g1, Re.matches
            (Re.Group 1 (Re.Alt (Re.StarClass Re.upper) (Re.StarClass Re.lower)))
            0 (letters +:+ String d (rest +:+ "-" +:+ device +:+ "-" +:+ py +:+ eol)) ∅
            letters (0 + String.length letters)
            (String d (rest +:+ "-" +:+ device +:+ "-" +:+ py +:+ eol)) g1).
  { destruct Hl as [Hl|Hl]; eexists.
    - apply Re.m_group, Re.m_alt_l, Re.m_star, Hl.
    - apply Re.m_group, Re.m_alt_r, Re.m_star, Hl. }
  destruct H1 as [g1 H1].
  assert (H3 : forall pos g, exists g3, Re.matches
            (Re.Group 3 (Re.Alt (Re.Lit "cpu") (Re.Lit "gpu")))
            pos (device +:+ "-" +:+ py +:+ eol) g device (pos + 3) ("-" +:+ py +:+ eol) g3).
  { intros pos g. destruct Hdev as [->| ->]; eexists.
    - apply Re.m_group, Re.m_alt_l. apply (Re.m_lit "cpu").
    - apply Re.m_group, Re.m_alt_r. apply (Re.m_lit "gpu"). }
  assert (H4 : forall pos g, exists g4, Re.matches
            (Re.Group 4 (Re.Alt (Re.Lit "py2") (Re.Lit "py3")))
            pos (py +:+ eol) g py (pos + 3) eol g4).
  { intros pos g. destruct Hpy as [->| ->]; eexists.
    - apply Re.m_group, Re.m_alt_l. apply (Re.m_lit "py2").
    - apply Re.m_group, Re.m_alt_r. apply (Re.m_lit "py3"). }
  pose proof (Re.m_group 2 _ _ _ g1 _ _ _ _
    (Re.m_cat _ _ _ _ _ _ _ _ _ _ _ _ _
       (Re.m_class Re.digit d (0 + String.length letters)
          (rest +:+ "-" +:+ device +:+ "-" +:+ py +:+ eol) g1 Hd)
       (Re.m_star Re.dot rest _ ("-" +:+ device +:+ "-" +:+ py +:+ eol) g1 Hrest))) as H2.
  set (p2 := S (0 + String.length letters) + String.length rest) in *.
  set (g2 := <[2%nat := String d "" +:+ rest]> g1) in *.
  destruct (H3 (p2 + 1) g2) as [g3 H3'].
  destruct (H4 (p2 + 1 + 3 + 1) g3) as [g4 H4'].
  do 4 eexists. unfold RL.tag_pattern.
  eapply Re.m_cat; [apply Re.m_start|].
  eapply Re.m_cat; [exact H1|].
  eapply Re.m_cat; [exact H2|].
  eapply Re.m_cat; [apply (Re.m_lit "-")|].
  eapply Re.m_cat; [exact H3'|].
  eapply Re.m_cat; [apply (Re.m_lit "-")|].
  eapply Re.m_cat; [exact H4'|].
  apply Re.m_end, Hend.
Qed.

(** *** A tag has one shape only *)

Lemma letter_not_digit (c : ascii) :
  Re.upper c = true \/ Re.lower c = true -> Re.digit c = false.
Proof.
  destruct c as [[] [] [] [] [] [] [] []]; vm_compute; intros [H|H];
    first [reflexivity | discriminate H].
Qed.

Lemma all_in_impl (p q : ascii -> bool) (s : string) :
  (forall c, p c = true -> q c = true) ->
  Re.all_in p s = true -> Re.all_in q s = true.
Proof.
  intros Hpq. induction s as [|c s IH]; [reflexivity|]. simpl.
  rewrite !andb_true_iff. intros [Hc Hs]. auto.
Qed.

Lemma letters_not_digits (s : string) :
  Re.all_in Re.upper s = true \/ Re.all_in Re.lower s = true ->
  Re.all_in (fun c => negb (Re.digit c)) s = true.
Proof.
  intros [H|H]; revert H; apply all_in_impl; intros c Hc;
    rewrite letter_not_digit; auto.
Qed.

Lemma prefix_before_digit_unique (l l' : string) (d d' : ascii) (x x' : string) :
  Re.all_in (fun c => negb (Re.digit c)) l = true ->
  Re.all_in (fun c => negb (Re.digit c)) l' = true ->
  Re.digit d = true -> Re.digit d' = true ->
  l +:+ String d x = l' +:+ String d' x' ->
  l = l' /\ String d x = String d' x'.
Proof.
  intros Hl Hl' Hd Hd'. revert l' Hl'.
  induction l as [|c l IH]; intros [|c' l'] Hl' Heq.
  - auto.
  - rewrite app_nil_l, app_cons in Heq. injection Heq as -> _.
    simpl in Hl'. rewrite Hd in Hl'. discriminate Hl'.
  - rewrite app_nil_l, app_cons in Heq. injection Heq as <- _.
    simpl in Hl. rewrite Hd' in Hl. discriminate Hl.
  - rewrite !app_cons in Heq. injection Heq as -> Heq.
    simpl in Hl, Hl'. apply andb_true_iff in Hl as [_ Hl].
    apply andb_true_iff in Hl' as [_ Hl'].
    destruct (IH Hl l' Hl' Heq) as [-> ?]. auto.
Qed.

Lemma app_inj_same_length (v v' x y : string) :
  String.length x = String.length y -> v +:+ x = v' +:+ y -> v = v'.
Proof.
  intros Hlen. revert v'. induction v as [|c v IH]; intros [|c' v'] Heq.
  - reflexivity.
  - rewrite app_nil_l in Heq. subst x. rewrite length_app in Hlen.
    simpl in Hlen. lia.
  - rewrite app_nil_l in Heq. subst y. rewrite length_app in Hlen.
    simpl in Hlen. lia.
  - rewrite !app_cons in Heq. injection Heq as -> Heq. f_equal. auto.
Qed.

Lemma last_char_app (v : string) (c : ascii) (x : string) :
  String.get (String.length (v +:+ String c x) - 1) (v +:+ String c x)
  = String.get (String.length x) (String c x).
Proof.
  induction v as [|a v IH].
  - rewrite app_nil_l. simpl. rewrite Nat.sub_0_r. reflexivity.
  - rewrite app_cons. rewrite length_app in IH. simpl in IH.
    simpl String.length. rewrite length_app. simpl String.length.
    replace (S (String.length v + S (String.length x)) - 1)
      with (S (String.length v + S (String.length x) - 1)) by lia.
    simpl String.get. exact IH.
Qed.

Lemma last_char_app_dash (v x : string) :
  String.get (String.length (v +:+ "-" +:+ x) - 1) (v +:+ "-" +:+ x)
  = String.get (String.length x) (String "-" x).
Proof. apply last_char_app. Qed.

Lemma version_before_suffix_unique (v v' dev py eol dev' py' eol' : string) :
  dev = "cpu" \/ dev = "gpu" -> py = "py2" \/ py = "py3" ->
  eol = "" \/ eol = String Re.newline "" ->
  dev' = "cpu" \/ dev' = "gpu" -> py' = "py2" \/ py' = "py3" ->
  eol' = "" \/ eol' = String Re.newline "" ->
  v +:+ "-" +:+ dev +:+ "-" +:+ py +:+ eol
  = v' +:+ "-" +:+ dev' +:+ "-" +:+ py' +:+ eol' ->
  v = v'.
Proof.
  intros [->| ->] [->| ->] [->| ->] [->| ->] [->| ->] [->| ->] Heq.
  all: first
    [ solve [eapply app_inj_same_length; [|exact Heq]; reflexivity]
    | exfalso;
      assert (Hlast := f_equal (fun s => String.get (String.length s - 1) s) Heq);
      cbv beta in Hlast;
      rewrite (last_char_app_dash v), (last_char_app_dash v') in Hlast;
      vm_compute in Hlast; discriminate Hlast ].
Qed.

Lemma tag_shape_unique (tag l v l' v' : string) :
  tag_shape tag l v -> tag_shape tag l' v' -> l = l' /\ v = v'.
Proof.
  intros (dev & py & eol & -> & Hl & (d & rest & -> & Hd & _) & Hdev & Hpy & Heol)
         (dev' & py' & eol' & Heq & Hl' & (d' & rest' & -> & Hd' & _) & Hdev' & Hpy' & Heol').
  apply letters_not_digits in Hl, Hl'.
  rewrite !app_cons in Heq.
  destruct (prefix_before_digit_unique _ _ _ _ _ _ Hl Hl' Hd Hd' Heq) as [-> Hrest].
  split; [reflexivity|].
  exact (version_before_suffix_unique (String d rest) (String d' rest')
           _ _ _ _ _ _ Hdev Hpy Heol Hdev' Hpy' Heol' Hrest).
Qed.

Lemma tag_parser_result (tag : string) :
  RL._toolkit_and_version_from_tag tag = (None, None)
  \/ exists l v, RL._toolkit_and_version_from_tag tag = (Some l, Some v)
                 /\ tag_shape tag l v.
Proof.
  unfold RL._toolkit_and_version_from_tag, Re.match_.
  destruct (Re.rmatch RL.tag_pattern 0 tag ∅ (fun _ _ _ g => Some g)) as [g|] eqn:Hg;
    [right|now left].
  apply rmatch_sound in Hg as (m & pos' & s' & g' & Hm & Hk).
  injection Hk as ->.
  apply tag_pattern_matches_inv in Hm as (l & v & Hshape & -> & ->).
  eauto.
Qed.

Lemma tag_parser_complete (tag l v : string) :
  tag_shape tag l v -> RL._toolkit_and_version_from_tag tag = (Some l, Some v).
Proof.
  intros Hshape.
  destruct (tag_parser_result tag) as [Hnone|(l' & v' & Hsome & Hshape')].
  - exfalso. apply tag_pattern_matches_intro in Hshape as (m & pos' & s' & g & Hm).
    destruct (rmatch_complete _ _ _ _ _ _ _ _ Hm (fun _ _ _ g => Some g) g eq_refl)
      as [y Hy].
    unfold RL._toolkit_and_version_from_tag, Re.match_ in Hnone.
    rewrite Hy in Hnone.
    apply rmatch_sound in Hy as (m1 & pos1 & s1 & g1 & Hm1 & Hk).
    injection Hk as ->.
    apply tag_pattern_matches_inv in Hm1 as (l1 & v1 & _ & H1 & _).
    rewrite H1 in Hnone. discriminate Hnone.
  - destruct (tag_shape_unique _ _ _ _ _ Hshape Hshape') as [-> ->]. exact Hsome.
Qed.

(** C7. For every tag, the parser returns the pair (letters, version) exactly
    when the tag has the shape of the pattern with these letters and this
    version, and the pair (None, None) exactly when the tag has that shape for
    no letters and version; it returns in every case. On the tag
    "coach0.11-gpu-py3" it gives toolkit "coach" and version "0.11". *)
Theorem tag_parser_follows_pattern :
  forall tag : string,
    (forall l v, RL._toolkit_and_version_from_tag tag = (Some l, Some v)
                 <-> tag_shape tag l v)
    /\ (RL._toolkit_and_version_from_tag tag = (None, None)
        <-> ~ exists l v, tag_shape tag l v)
    /\ RL._toolkit_and_version_from_tag "coach0.11-gpu-py3" = (Some "coach", Some "0.11").
Proof.
  intros tag. split; [|split].
  - intros l v. split; [|apply tag_parser_complete].
    intros Heq. destruct (tag_parser_result tag) as [Hnone|(l' & v' & Hsome & Hshape)].
    + rewrite Hnone in Heq. discriminate Heq.
    + rewrite Hsome in Heq. injection Heq as <- <-. exact Hshape.
  - split.
    + intros Hnone (l & v & Hshape). apply tag_parser_complete in Hshape.
      rewrite Hshape in Hnone. discriminate Hnone.
    + intros Hno. destruct (tag_parser_result tag) as [Hnone|(l & v & _ & Hshape)];
        [exact Hnone|]. exfalso. eauto.
  - vm_compute. reflexivity.
Qed.

(* ===================================================================== *)
(** ** The RL estimator: support table and constructor                     *)
(* ===================================================================== *)

Ltac table_cases :=
  repeat match goal with
  | H : <[_ := _]> _ !! _ = Some _ |- _ =>
      apply lookup_insert_Some in H as [[<- <-]|[? H]]
  | H : {[_ := _]} !! _ = Some _ |- _ =>
      apply lookup_singleton_Some in H as [<- <-]
  end.

Lemma table_entry_in_rows (tk tv fw fv : string) :
  table_entry tk tv fw = Some fv -> In (tk, tv, fw, fv) table_rows.
Proof.
  unfold table_entry, RL.TOOLKIT_FRAMEWORK_VERSION_MAP. intros H.
  destruct (_ !! tk) as [vs|] eqn:E1; simpl in H; [|discriminate].
  destruct (vs !! tv) as [fs|] eqn:E2; simpl in H; [|discriminate].
  table_cases; simpl; tauto.
Qed.


Lemma is_combination_supported_table (tk tv fw : string) :
  RL._is_combination_supported (VStr tk) (VStr tv) (VStr fw)
  = match table_entry tk tv fw with Some _ => true | None => false end.
Proof.
  unfold RL._is_combination_supported, table_entry, dict_get,
    RL.TOOLKIT_FRAMEWORK_VERSION_MAP.
  destruct (_ !! tk) as [vs|] eqn:E1; simpl; [|reflexivity].
  assert (Hvs : dict_truthy vs = true) by (clear -E1; table_cases; reflexivity).
  rewrite Hvs.
  destruct (vs !! tv) as [fs|] eqn:E2; simpl; [|reflexivity].
  assert (Hfs : dict_truthy fs = true) by (clear -E1 E2; table_cases; reflexivity).
  rewrite Hfs.
  destruct (fs !! fw) as [fv|] eqn:E3; simpl; [|reflexivity].
  clear Hvs Hfs. table_cases; reflexivity.
Qed.

Lemma table_entry_empty_version (t : RLToolkit) (f : RLFramework) :
  table_entry (RL.toolkit_value t) "" (RL.framework_value f) = None.
Proof. destruct t, f; reflexivity. Qed.

Ltac run_init :=
  unfold RL.__init__, RL._validate_images_args;
  unfold mbind, mret, M_bind, M_ret, lift, raise, warning.

(** Without an image, the constructor succeeds exactly on the triples of the
    table, and otherwise raises before it builds anything. *)
Lemma rl_init_without_image ep t tv f sd hp image md kw log :
  str_truthy image = false ->
  RL.__init__ ep (VToolkit t) (VStr tv) (VFramework f) sd hp image md kw log
  = match table_entry (RL.toolkit_value t) tv (RL.framework_value f) with
    | Some fv => (Ok (estimator_for ep t tv f sd hp image md kw fv), log)
    | None =>
        (Raise (AttributeError
           (if String.eqb tv ""
            then "Please provide `toolkit_version` or `image_name` parameter."
            else "Provided `" +:+ RL.toolkit_value t +:+ "-" +:+ tv +:+ "` and `"
                   +:+ RL.framework_value f +:+ "` combination is not supported.")),
         log)
    end.
Proof.
  intros Himg. run_init. simpl. rewrite Himg. simpl.
  unfold RL.args_where. simpl.
  destruct (String.eqb_spec tv "") as [->|Hne]; simpl.
  - rewrite table_entry_empty_version. reflexivity.
  - unfold RL._validate_toolkit_support.
    rewrite is_combination_supported_table.
    unfold table_entry, dict_getitem, dict_get.
    destruct (_ !! RL.toolkit_value t) as [vs|]; simpl; [|reflexivity].
    destruct (vs !! tv) as [fs|]; simpl; [|reflexivity].
    destruct (fs !! RL.framework_value f) as [fv|]; reflexivity.
Qed.

(** C6. Without an explicit image, a triple absent from the support table
    makes the constructor raise a configuration error at once (nothing is
    logged or built before), and a triple of the table makes it succeed with
    [framework_version] the entry of the table. *)
Theorem rl_init_resolves_through_table :
  forall ep t tv f sd hp image md kw log,
    str_truthy image = false ->
    match table_entry (RL.toolkit_value t) tv (RL.framework_value f) with
    | Some fv =>
        exists est,
          RL.__init__ ep (VToolkit t) (VStr tv) (VFramework f) sd hp image md kw log
            = (Ok est, log)
          /\ RL.framework_version est = Some fv
          /\ RL.toolkit est = Some (RL.toolkit_value t)
          /\ RL.toolkit_version est = Some (VStr tv)
          /\ RL.framework est = Some (RL.framework_value f)
    | None =>
        exists msg,
          RL.__init__ ep (VToolkit t) (VStr tv) (VFramework f) sd hp image md kw log
            = (Raise (AttributeError msg), log)
    end.
Proof.
  intros ep t tv f sd hp image md kw log Himg.
  rewrite (rl_init_without_image _ _ _ _ _ _ _ _ _ _ Himg).
  destruct (table_entry _ _ _) as [fv|]; eauto 10.
Qed.

(** C6, instances: RAY, "0.5.3", MXNET is refused; COACH, "0.11.1",
    TENSORFLOW resolves to framework version "1.12". *)
Lemma rl_init_resolves_through_table_examples :
  (exists msg,
     RL.__init__ "train.py" (VToolkit RAY) (VStr "0.5.3") (VFramework MXNET)
       None None None None sample_kwargs []
     = (Raise (AttributeError msg), []))
  /\ (exists est,
        RL.__init__ "train.py" (VToolkit COACH) (VStr "0.11.1") (VFramework TENSORFLOW)
          None None None None sample_kwargs []
        = (Ok est, [])
        /\ RL.framework_version est = Some "1.12"
        /\ RL.toolkit est = Some "coach"
        /\ RL.toolkit_version est = Some (VStr "0.11.1")
        /\ RL.framework est = Some "tensorflow").
Proof.
  split.
  - exact (rl_init_resolves_through_table "train.py" RAY "0.5.3" MXNET
             None None None None sample_kwargs [] eq_refl).
  - exact (rl_init_resolves_through_table "train.py" COACH "0.11.1" TENSORFLOW
             None None None None sample_kwargs [] eq_refl).
Defined.

(** With an image, the constructor keeps none of the toolkit arguments: once
    the two format checks pass, the object is the one built from the image and
    the base class arguments alone, and the log gains at most the warning. *)
Lemma rl_init_with_image ep toolkit tv framework sd hp image md kw log :
  image <> "" ->
  RL._validate_toolkit_format toolkit = Ok tt ->
  RL._validate_framework_format framework = Ok tt ->
  RL.__init__ ep toolkit tv framework sd hp (Some image) md kw log
  = (Ok (estimator_with_image ep sd hp image md kw),
     match RL.args_where id toolkit tv framework with
     | [] => log
     | found =>
         (log ++ ["Parameter `image_name` is specified, `" +:+ join "`, `" found
                    +:+ "` are going to be ignored when choosing the image."])%list
     end).
Proof.
  intros Himg Ht Hf. run_init. rewrite Ht, Hf.
  assert (Htruthy : str_truthy (Some image) = true).
  { simpl. destruct (String.eqb_spec image ""); [contradiction|reflexivity]. }
  rewrite Htruthy. cbn [negb].
  destruct (RL.args_where id toolkit tv framework) as [|a l]; reflexivity.
Qed.

(** C5. With an explicit image and toolkit and framework arguments that are
    enum members, the constructor succeeds, logs the warning that they are
    ignored, and ignores them: the object is the one built without them, no
    toolkit attribute is set, [train_image] is the image, and the
    hyperparameters are those of the base class with the two entries that
    [hyperparameters] adds, whatever the toolkit arguments were. *)
Theorem rl_init_with_image_ignores_toolkit :
  forall `{Imports} ep t tv f sd hp image md kw log,
    image <> "" ->
    exists est msg,
      RL.__init__ ep (VToolkit t) tv (VFramework f) sd hp (Some image) md kw log
        = (Ok est, (log ++ [msg])%list)
      /\ RL.__init__ ep VNone VNone VNone sd hp (Some image) md kw log = (Ok est, log)
      /\ RL.toolkit est = None /\ RL.toolkit_version est = None
      /\ RL.framework est = None /\ RL.framework_version est = None
      /\ RL.train_image est = Ok image
      /\ RL.hyperparameters est
         = (base_hp ← _json_encode_hyperparameters (default ∅ hp);
            added ← _json_encode_hyperparameters
                      (<[RL.SAGEMAKER_ESTIMATOR := VStr RL.SAGEMAKER_ESTIMATOR_VALUE]>
                         {[SAGEMAKER_OUTPUT_LOCATION := kw_output_path kw]});
            mret (added ∪ base_hp)).
Proof.
  intros ? ep t tv f sd hp image md kw log Himg.
  exists (estimator_with_image ep sd hp image md kw).
  exists ("Parameter `image_name` is specified, `"
            +:+ join "`, `" (RL.args_where id (VToolkit t) tv (VFramework f))
            +:+ "` are going to be ignored when choosing the image.").
  split; [|split].
  - rewrite (rl_init_with_image ep (VToolkit t) tv (VFramework f) sd hp image md kw
               log Himg eq_refl eq_refl).
    reflexivity.
  - rewrite (rl_init_with_image ep VNone VNone VNone sd hp image md kw
               log Himg eq_refl eq_refl).
    reflexivity.
  - repeat split.
    unfold RL.train_image. simpl.
    destruct (String.eqb_spec image ""); [contradiction|reflexivity].
Qed.

(** C5, instance: an image together with RAY, "0.5.3" and MXNET, a triple
    that the table does not even support. *)
Lemma rl_init_with_image_ignores_toolkit_example :
  exists est msg,
    RL.__init__ "train.py" (VToolkit RAY) (VStr "0.5.3") (VFramework MXNET)
      None None (Some "registry/my-image:1.0") None sample_kwargs []
      = (Ok est, [msg])
    /\ RL.__init__ "train.py" VNone VNone VNone
         None None (Some "registry/my-image:1.0") None sample_kwargs [] = (Ok est, [])
    /\ RL.toolkit est = None /\ RL.toolkit_version est = None
    /\ RL.framework est = None /\ RL.framework_version est = None
    /\ RL.train_image (H := sample_imports) est = Ok "registry/my-image:1.0"
    /\ RL.hyperparameters (H := sample_imports) est
       = (base_hp ← _json_encode_hyperparameters ∅;
          added ← _json_encode_hyperparameters
                    (<[RL.SAGEMAKER_ESTIMATOR := VStr RL.SAGEMAKER_ESTIMATOR_VALUE]>
                       {["sagemaker_s3_output" := VStr "s3://bucket/out"]});
          mret (added ∪ base_hp)).
Proof.
  refine (@rl_init_with_image_ignores_toolkit sample_imports "train.py" RAY
            (VStr "0.5.3") MXNET None None "registry/my-image:1.0" None
            sample_kwargs [] _).
  discriminate.
Defined.

(** C10, counterexample. The empty string is not [None] and is no member of
    [RLToolkit], yet with an image the constructor raises nothing for it. *)
Lemma rl_init_accepts_falsy_non_member :
  VStr "" <> VNone
  /\ RL.in_RLToolkit (VStr "") = false
  /\ RL.__init__ "train.py" (VStr "") VNone VNone None None (Some "registry/my-image:1.0")
       None sample_kwargs []
     = (Ok (estimator_with_image "train.py" None None "registry/my-image:1.0"
              None sample_kwargs), [])
  /\ ~ (forall toolkit image,
          toolkit <> VNone -> RL.in_RLToolkit toolkit = false ->
          is_value_error
            (RL.__init__ "train.py" toolkit VNone VNone None None (Some image)
               None sample_kwargs []).1 = true).
Proof.
  split; [discriminate|]. split; [reflexivity|]. split; [reflexivity|].
  intros Hall.
  specialize (Hall (VStr "") "registry/my-image:1.0" ltac:(discriminate) eq_refl).
  discriminate Hall.
Qed.

(** C10, amended. Whether or not an image is given, a truthy toolkit that is
    no member of [RLToolkit], or a truthy framework that is no member of
    [RLFramework], makes the constructor raise a value error before anything
    is logged. *)
Theorem rl_init_validates_enum_format :
  forall ep toolkit tv framework sd hp image md kw log,
    (truthy toolkit = true /\ RL.in_RLToolkit toolkit = false)
    \/ (truthy framework = true /\ RL.in_RLFramework framework = false) ->
    exists msg,
      RL.__init__ ep toolkit tv framework sd hp image md kw log
      = (Raise (ValueError msg), log).
Proof.
  intros ep toolkit tv framework sd hp image md kw log Hbad. run_init.
  destruct (RL._validate_toolkit_format toolkit) as [[]|e] eqn:Ht.
  - destruct Hbad as [[Htr Hin]|[Htr Hin]].
    + unfold RL._validate_toolkit_format in Ht. rewrite Htr, Hin in Ht.
      discriminate Ht.
    + unfold RL._validate_framework_format. rewrite Htr, Hin. simpl. eauto.
  - unfold RL._validate_toolkit_format in Ht.
    destruct (truthy toolkit && negb (RL.in_RLToolkit toolkit)); [|discriminate].
    injection Ht as <-. eauto.
Qed.

(** C10, instance: a string as toolkit and an integer as framework, each with
    an explicit image. *)
Lemma rl_init_validates_enum_format_examples :
  (exists msg,
     RL.__init__ "train.py" (VStr "coach") VNone VNone None None
       (Some "registry/my-image:1.0") None sample_kwargs []
     = (Raise (ValueError msg), []))
  /\ (exists msg,
        RL.__init__ "train.py" (VToolkit COACH) VNone (VInt 3) None None
          (Some "registry/my-image:1.0") None sample_kwargs []
        = (Raise (ValueError msg), [])).
Proof.
  split.
  - exact (rl_init_validates_enum_format "train.py" (VStr "coach") VNone VNone
             None None (Some "registry/my-image:1.0") None sample_kwargs []
             (or_introl (conj eq_refl eq_refl))).
  - exact (rl_init_validates_enum_format "train.py" (VToolkit COACH) VNone (VInt 3)
             None None (Some "registry/my-image:1.0") None sample_kwargs []
             (or_intror (conj eq_refl eq_refl))).
Defined.

(* ===================================================================== *)
(** ** From the estimator to its image tag and back                        *)
(* ===================================================================== *)

(** C1, counterexample. The two entries of the table for coach 0.11.0, with
    tensorflow and with mxnet, give the same tag, so nothing computed from what
    the parser returns for a tag can be the triple the tag came from. *)
Lemma tag_does_not_carry_framework :
  table_entry "coach" "0.11.0" "tensorflow" = Some "1.11"
  /\ table_entry "coach" "0.11.0" "mxnet" = Some "1.3"
  /\ tag_of_triple COACH "0.11.0" TENSORFLOW "cpu" = Ok "coach0.11.0-cpu-py3"
  /\ tag_of_triple COACH "0.11.0" MXNET "cpu" = Ok "coach0.11.0-cpu-py3"
  /\ RL._toolkit_and_version_from_tag "coach0.11.0-cpu-py3" = (Some "coach", Some "0.11.0")
  /\ ~ (exists recover : option string * option string -> string * string * string,
          forall t tv f device tag,
            is_Some (table_entry (RL.toolkit_value t) tv (RL.framework_value f)) ->
            tag_of_triple t tv f device = Ok tag ->
            recover (RL._toolkit_and_version_from_tag tag)
            = (RL.toolkit_value t, tv, RL.framework_value f)).
Proof.
  assert (H1 : tag_of_triple COACH "0.11.0" TENSORFLOW "cpu" = Ok "coach0.11.0-cpu-py3")
    by (vm_compute; reflexivity).
  assert (H2 : tag_of_triple COACH "0.11.0" MXNET "cpu" = Ok "coach0.11.0-cpu-py3")
    by (vm_compute; reflexivity).
  repeat (split; [first [assumption | vm_compute; reflexivity]|]).
  intros [recover Hrec].
  pose proof (Hrec COACH "0.11.0" TENSORFLOW "cpu" _ (mk_is_Some _ _ eq_refl) H1) as Ha.
  pose proof (Hrec COACH "0.11.0" MXNET "cpu" _ (mk_is_Some _ _ eq_refl) H2) as Hb.
  rewrite Ha in Hb. discriminate Hb.
Qed.

(** C1, amended. For every entry of the support table, the toolkit and the
    framework are members of the two enumerations, the estimator built from the
    triple has as tag the toolkit name and version followed by the device and
    python version, and the tag parser gives back the toolkit and the toolkit
    version of the entry. The framework is not in the tag: it is what
    [_image_framework] puts in the image name, and together with the parsed
    pair it is a supported combination. *)
Theorem tag_round_trip_recovers_toolkit_and_version :
  forall tk tv fw fv,
    table_entry tk tv fw = Some fv ->
    exists t f,
      RL.toolkit_value t = tk /\ RL.framework_value f = fw
      /\ forall ep sd hp image md kw log device,
           str_truthy image = false -> device = "cpu" \/ device = "gpu" ->
           exists est tag,
             RL.__init__ ep (VToolkit t) (VStr tv) (VFramework f) sd hp image md kw log
               = (Ok est, log)
             /\ RL.would_be_tag est device = Ok tag
             /\ tag = RL.image_tag (tk +:+ tv) device RL.PYTHON_VERSION
             /\ RL._toolkit_and_version_from_tag tag = (Some tk, Some tv)
             /\ RL._image_framework est = Ok ("rl-" +:+ fw)
             /\ RL._is_combination_supported (VStr tk) (VStr tv) (VStr fw) = true.
Proof.
  intros tk tv fw fv Hentry.
  pose proof (table_entry_in_rows _ _ _ _ Hentry) as Hrows.
  unfold table_rows in Hrows. simpl in Hrows.
  repeat (destruct Hrows as [Hrows|Hrows];
          [injection Hrows as <- <- <- <-|]); [..|destruct Hrows].
  all: (exists COACH + exists RAY); (exists TENSORFLOW + exists MXNET);
       split; [reflexivity|]; split; [reflexivity|].
  all: intros ep sd hp image md kw log device Himg Hdev.
  all: rewrite (rl_init_without_image _ _ _ _ _ _ _ _ _ _ Himg).
  all: cbn [RL.toolkit_value RL.framework_value]; rewrite Hentry.
  all: do 2 eexists; split; [reflexivity|].
  all: rewrite is_combination_supported_table, Hentry.
  all: destruct Hdev as [->| ->].
  all: repeat split; vm_compute; reflexivity.
Qed.

(** C1, instance: the entry for coach 0.11.1 with tensorflow. *)
Lemma tag_round_trip_example :
  exists t f,
    RL.toolkit_value t = "coach" /\ RL.framework_value f = "tensorflow"
    /\ forall ep sd hp image md kw log device,
         str_truthy image = false -> device = "cpu" \/ device = "gpu" ->
         exists est tag,
           RL.__init__ ep (VToolkit t) (VStr "0.11.1") (VFramework f) sd hp image md kw log
             = (Ok est, log)
           /\ RL.would_be_tag est device = Ok tag
           /\ tag = RL.image_tag ("coach" +:+ "0.11.1") device RL.PYTHON_VERSION
           /\ RL._toolkit_and_version_from_tag tag = (Some "coach", Some "0.11.1")
           /\ RL._image_framework est = Ok ("rl-" +:+ "tensorflow")
           /\ RL._is_combination_supported (VStr "coach") (VStr "0.11.1")
                (VStr "tensorflow") = true.
Proof.
  exact (tag_round_trip_recovers_toolkit_and_version
           "coach" "0.11.1" "tensorflow" "1.12" eq_refl).
Defined.

(* ===================================================================== *)
(** ** Rebuilding the constructor arguments from a job description         *)
(* ===================================================================== *)

Lemma unsupported_without_rl_framework (toolkit toolkit_version : option string)
    (fw : string) :
  (forall f, fw <> RL.framework_value f) ->
  RL._is_combination_supported (of_option_str toolkit) (of_option_str toolkit_version)
    (VStr fw) = false.
Proof.
  intros Hfw. destruct toolkit as [tk|]; [|reflexivity].
  destruct toolkit_version as [tv|].
  - simpl of_option_str. rewrite is_combination_supported_table.
    destruct (table_entry tk tv fw) as [fv|] eqn:E; [|reflexivity].
    apply table_entry_in_rows in E. unfold table_rows in E. simpl in E.
    exfalso.
    repeat (destruct E as [E|E];
            [injection E as <- <- <- <-;
             first [exact (Hfw TENSORFLOW eq_refl) | exact (Hfw MXNET eq_refl)]|]).
    destruct E.
  - unfold RL._is_combination_supported. simpl.
    destruct (RL.TOOLKIT_FRAMEWORK_VERSION_MAP !! tk) as [vs|]; [|reflexivity].
    destruct (dict_truthy vs); reflexivity.
Qed.

(** C4. When the image of the job decodes to a framework that is not the one
    of the class that rebuilds the arguments ([mxnet] for the MXNet estimator,
    one of the members of [RLFramework] for the RL estimator), the method
    raises the value error that names the training job. *)
Theorem reconstruction_rejects_other_framework :
  forall `{Imports} (details : job_details) (channel : option string)
         (params : gmap string value) (image : string) (job : value)
         (fw : string) (py : option string) (tag : string) (sm : option string),
    base_prepare_init_params_from_job_description details channel = Ok params ->
    params !! "image" = Some (VStr image) ->
    params !! "base_job_name" = Some job ->
    framework_name_from_image image = (Some fw, py, Some tag, sm) ->
    fw <> "" ->
    (fw <> MXNet.__framework_name__ ->
       MXNet._prepare_init_params_from_job_description details channel
       = Raise (ValueError ("Training job: " +:+ str job
                              +:+ " didn't use image for requested framework")))
    /\ ((forall f, fw <> RL.framework_value f) ->
          RL._prepare_init_params_from_job_description details channel
          = Raise (ValueError ("Training job: " +:+ str job
                                 +:+ " didn't use image for requested framework"))).
Proof.
  intros ? details channel params image job fw py tag sm Hbase Himage Hjob Hname Hfw.
  assert (Htruthy : str_truthy (Some fw) = true).
  { simpl. destruct (String.eqb_spec fw ""); [contradiction|reflexivity]. }
  split.
  - intros Hother. unfold MXNet._prepare_init_params_from_job_description.
    rewrite Hbase. unfold mbind, result_bind, dict_pop. rewrite Himage, Hname, Htruthy.
    cbn [negb]. unfold dict_getitem, dict_get.
    rewrite !lookup_insert_ne, lookup_delete_ne, Hjob by discriminate.
    rewrite bool_decide_eq_false_2 by congruence. reflexivity.
  - intros Hother. unfold RL._prepare_init_params_from_job_description.
    rewrite Hbase. unfold mbind, result_bind, dict_pop. rewrite Himage, Hname, Htruthy.
    cbn [negb].
    destruct (RL._toolkit_and_version_from_tag tag) as [toolkit toolkit_version].
    change (of_option_str (Some fw)) with (VStr fw).
    rewrite (unsupported_without_rl_framework _ _ _ Hother). cbn [negb].
    unfold dict_getitem, dict_get.
    rewrite lookup_delete_ne, Hjob by discriminate. reflexivity.
Qed.

(** C4, instance: a job whose image is a PyTorch image. *)
Lemma reconstruction_rejects_other_framework_example :
  MXNet._prepare_init_params_from_job_description (H := sample_imports)
    "registry/sagemaker-pytorch:1.0.0-cpu-py3" None
  = Raise (ValueError "Training job: job-1 didn't use image for requested framework")
  /\ RL._prepare_init_params_from_job_description (H := sample_imports)
       "registry/sagemaker-pytorch:1.0.0-cpu-py3" None
     = Raise (ValueError "Training job: job-1 didn't use image for requested framework").
Proof.
  destruct (@reconstruction_rejects_other_framework sample_imports
              "registry/sagemaker-pytorch:1.0.0-cpu-py3" None
              (<["image" := VStr "registry/sagemaker-pytorch:1.0.0-cpu-py3"]>
                 {["base_job_name" := VStr "job-1"]})
              "registry/sagemaker-pytorch:1.0.0-cpu-py3" (VStr "job-1")
              "pytorch" (Some "py3") "1.0.0-cpu-py3" None
              eq_refl ltac:(vm_compute; reflexivity) ltac:(vm_compute; reflexivity)
              eq_refl ltac:(discriminate)) as [Hmx Hrl].
  split.
  - apply Hmx. discriminate.
  - apply Hrl. intros []; discriminate.
Defined.

(* ===================================================================== *)
(** ** The MXNet estimator: distributions and the lowest version           *)
(* ===================================================================== *)

(** C2, the code at the failing input. With [distributions] given, framework
    version "1.10" makes the constructor raise the value error whose message
    says that versions 1.3 and higher are valid: the fields of the version are
    compared as strings, and the string "10" is below the string "3". The
    versions "1.3" and "1.4" pass and get the parameter server flag. *)
Theorem mxnet_distributions_rejects_1_10 :
  forall `{Imports} ep sd hp py image kw log
         (distributions : gmap string (gmap string value)),
    list_lt (split "." "1.10") MXNet._LOWEST_SCRIPT_MODE_VERSION = true
    /\ MXNet.__init__ ep sd hp py (Some "1.10") image (Some distributions) kw log
       = (Raise (ValueError
            "The distributions option is valid for only versions 1.3 and higher"),
          if String.eqb py "py2"
          then (log ++ [python_deprecation_warning MXNet.__framework_name__])%list
          else log)
    /\ (forall v enabled, v = "1.3" \/ v = "1.4" ->
          distributions !! "parameter_server" = Some enabled ->
          exists est,
            MXNet.__init__ ep sd hp py (Some v) image (Some distributions) kw log
            = (Ok est,
               if String.eqb py "py2"
               then (log ++ [python_deprecation_warning MXNet.__framework_name__])%list
               else log)
            /\ MXNet.framework_version est = v
            /\ _hyperparameters (MXNet.base est) !! LAUNCH_PS_ENV_NAME
               = Some (default (VBool false) (enabled !! "enabled"))).
Proof.
  intros ? ep sd hp py image kw log distributions.
  split; [reflexivity|]. split.
  - unfold MXNet.__init__, mbind, mret, M_bind, M_ret, lift, warning. simpl.
    destruct (String.eqb py "py2"); reflexivity.
  - intros v enabled Hv Hps.
    unfold MXNet.__init__, mbind, mret, M_bind, M_ret, lift, warning.
    destruct Hv as [->| ->]; simpl; rewrite Hps;
      destruct (String.eqb py "py2"); eexists; (split; [reflexivity|]);
      simpl; rewrite lookup_insert_eq; auto.
Qed.

(* ===================================================================== *)
(** ** Further properties: hyperparameter ranges                           *)
(* ===================================================================== *)

(** X1. A value is valid for a categorical parameter exactly when it is a
    string and is the cast ([cast_to_type]) of one of the supplied values: a
    supplied value is valid once cast, and no object other than a string is
    valid (an integer that was supplied is not). *)
Theorem categorical_is_valid_iff_cast_of_supplied :
  forall (vs : Ranges.values_arg) (x : value),
    RangeMethods.is_valid (Ranges.CategoricalParameter_init vs) x = true
    <-> exists v, In v (supplied vs) /\ x = VStr (Ranges.cast_to_type v).
Proof.
  intros vs x.
  assert (Hv : Ranges.values (Ranges.CategoricalParameter_init vs)
               = map Ranges.to_str (supplied vs)) by (destruct vs; reflexivity).
  unfold RangeMethods.is_valid, Ranges.categorical_is_valid. rewrite Hv. split.
  - destruct x as [| | |s| |]; try discriminate.
    intros Hex. apply existsb_exists in Hex as (s' & Hin & Heq).
    apply String.eqb_eq in Heq as <-.
    apply in_map_iff in Hin as (v & <- & Hin). eauto.
  - intros (v & Hin & ->). apply existsb_exists.
    exists (Ranges.to_str v). split; [|apply String.eqb_refl].
    apply in_map. exact Hin.
Qed.

Lemma all_in_app (p : ascii -> bool) (s t : string) :
  Re.all_in p (s +:+ t) = Re.all_in p s && Re.all_in p t.
Proof.
  induction s as [|c s IH]; [reflexivity|].
  rewrite app_cons. simpl. rewrite IH, andb_assoc. reflexivity.
Qed.

Lemma escape_char_printable (c : ascii) :
  Re.all_in MoreProps.printable (Json.escape_char c) = true.
Proof. destruct c as [[] [] [] [] [] [] [] []]; vm_compute; reflexivity. Qed.

Lemma encode_chars_printable (s : string) :
  Re.all_in MoreProps.printable (Json.encode_chars s) = true.
Proof.
  induction s as [|c s IH]; [reflexivity|].
  simpl. rewrite all_in_app, escape_char_printable, IH. reflexivity.
Qed.

(** X2. Every element of the JSON range of a categorical parameter is made of
    printable ASCII characters only and is enclosed in double quotes, whatever
    characters the values contain. *)
Theorem json_range_values_are_quoted_ascii :
  forall (vs : Ranges.values_arg) (name : string),
    Forall (fun doc =>
              Re.all_in MoreProps.printable doc = true
              /\ exists body, doc = String Json.quote (body +:+ String Json.quote ""))
      (Ranges.Values (Ranges.as_json_range (Ranges.CategoricalParameter_init vs) name)).
Proof.
  intros vs name. unfold Ranges.as_json_range. simpl Ranges.Values.
  apply Forall_forall. intros doc Hin.
  apply list_elem_of_In, in_map_iff in Hin as (s & <- & _).
  unfold Json.encode_basestring_ascii. split; [|eauto].
  simpl. rewrite all_in_app, encode_chars_printable. reflexivity.
Qed.

(** X3. The tuning range of a range with integer bounds keeps all of it: two
    such ranges with the same tuning range have the same name, bounds and
    scaling type, and the bounds are sent as their decimal text. *)
Theorem integer_tuning_range_is_injective :
  forall (float_str : Q -> string) (lo hi lo' hi' : Z) (st st' : option string)
         (name name' : string),
    RangeMethods.as_tuning_range float_str
      (Ranges.IntegerParameter (Ranges.NInt lo) (Ranges.NInt hi) st) name
    = RangeMethods.as_tuning_range float_str
        (Ranges.IntegerParameter (Ranges.NInt lo') (Ranges.NInt hi') st') name' ->
    name = name' /\ lo = lo' /\ hi = hi'
    /\ Ranges.IntegerParameter (Ranges.NInt lo) (Ranges.NInt hi) st
       = Ranges.IntegerParameter (Ranges.NInt lo') (Ranges.NInt hi') st'
    /\ RangeMethods.MinValue
         (RangeMethods.as_tuning_range float_str
            (Ranges.IntegerParameter (Ranges.NInt lo) (Ranges.NInt hi) st) name)
       = pretty lo.
Proof.
  intros float_str lo hi lo' hi' st st' name name' Heq.
  unfold RangeMethods.as_tuning_range, Ranges.IntegerParameter,
    Ranges.ParameterRange_init in *. simpl in *.
  injection Heq as Hname Hlo Hhi Hst.
  apply (inj pretty) in Hlo, Hhi. subst. rewrite Hst. auto.
Qed.

(** X3, instance. *)
Lemma integer_tuning_range_is_injective_example :
  "epochs" = "epochs" /\ 1%Z = 1%Z /\ 10%Z = 10%Z
  /\ Ranges.IntegerParameter (Ranges.NInt 1) (Ranges.NInt 10) None
     = Ranges.IntegerParameter (Ranges.NInt 1) (Ranges.NInt 10) (Some "Auto")
  /\ RangeMethods.MinValue
       (RangeMethods.as_tuning_range (fun _ => "")
          (Ranges.IntegerParameter (Ranges.NInt 1) (Ranges.NInt 10) None) "epochs")
     = pretty 1%Z.
Proof.
  exact (integer_tuning_range_is_injective (fun _ => "") 1 10 1 10 None (Some "Auto")
           "epochs" "epochs" eq_refl).
Defined.

(* ===================================================================== *)
(** ** Further properties: the RL constructor                              *)
(* ===================================================================== *)

Lemma args_where_names (toolkit tv framework : value) :
  RL.args_where negb toolkit tv framework = MoreProps.names_where false toolkit tv framework
  /\ RL.args_where id toolkit tv framework = MoreProps.names_where true toolkit tv framework.
Proof.
  unfold RL.args_where, MoreProps.names_where. simpl.
  destruct (truthy toolkit), (truthy tv), (truthy framework); split; reflexivity.
Qed.




Lemma rl_init_missing_arguments ep toolkit tv framework sd hp image md kw log :
  str_truthy image = false ->
  RL._validate_toolkit_format toolkit = Ok tt ->
  RL._validate_framework_format framework = Ok tt ->
  MoreProps.names_where false toolkit tv framework <> [] ->
  RL.__init__ ep toolkit tv framework sd hp image md kw log
  = (Raise (AttributeError
       ("Please provide `"
          +:+ join "`, `" (MoreProps.names_where false toolkit tv framework)
          +:+ "` or `image_name` parameter.")), log).
Proof.
  intros Himg Ht Hf Hmissing. run_init. rewrite Ht, Hf, Himg. cbn [negb].
  rewrite (proj1 (args_where_names toolkit tv framework)).
  destruct (MoreProps.names_where false toolkit tv framework); [contradiction|reflexivity].
Qed.

(** X4. Without an image, when any of toolkit, toolkit_version and framework
    is not given (is [None] or otherwise falsy), the constructor raises the
    attribute error whose message names exactly the arguments that are not
    given, in that order, and logs nothing. *)
Theorem rl_init_names_missing_arguments :
  forall ep toolkit tv framework sd hp image md kw log,
    str_truthy image = false ->
    RL._validate_toolkit_format toolkit = Ok tt ->
    RL._validate_framework_format framework = Ok tt ->
    MoreProps.names_where false toolkit tv framework <> [] ->
    RL.__init__ ep toolkit tv framework sd hp image md kw log
    = (Raise (AttributeError
         ("Please provide `"
            +:+ join "`, `" (MoreProps.names_where false toolkit tv framework)
            +:+ "` or `image_name` parameter.")), log).
Proof. exact rl_init_missing_arguments. Qed.

(** X4, instance: nothing but the entry point is given. *)
Lemma rl_init_names_missing_arguments_example :
  RL.__init__ "train.py" VNone VNone VNone None None None None sample_kwargs []
  = (Raise (AttributeError
       "Please provide `toolkit`, `toolkit_version`, `framework` or `image_name` parameter."),
     []).
Proof.
  exact (rl_init_names_missing_arguments "train.py" VNone VNone VNone None None None
           None sample_kwargs [] eq_refl eq_refl eq_refl ltac:(discriminate)).
Defined.



(** X6. With an image and arguments that pass the two format checks, the
    constructor succeeds and logs one warning that lists exactly those of
    toolkit, toolkit_version and framework that are given, in that order; when
    none of them is given it logs nothing. *)
Theorem rl_init_with_image_warns_about_given_arguments :
  forall ep toolkit tv framework sd hp image md kw log,
    image <> "" ->
    RL._validate_toolkit_format toolkit = Ok tt ->
    RL._validate_framework_format framework = Ok tt ->
    RL.__init__ ep toolkit tv framework sd hp (Some image) md kw log
    = (Ok (estimator_with_image ep sd hp image md kw),
       if decide (MoreProps.names_where true toolkit tv framework = [])
       then log
       else (log ++ ["Parameter `image_name` is specified, `"
                       +:+ join "`, `" (MoreProps.names_where true toolkit tv framework)
                       +:+ "` are going to be ignored when choosing the image."])%list).
Proof.
  intros ep toolkit tv framework sd hp image md kw log Himg Ht Hf.
  rewrite (rl_init_with_image ep toolkit tv framework sd hp image md kw log Himg Ht Hf).
  rewrite (proj2 (args_where_names toolkit tv framework)).
  destruct (MoreProps.names_where true toolkit tv framework); reflexivity.
Qed.

(** X6, instances: only a toolkit version is given; nothing is given. *)
Lemma rl_init_with_image_warns_about_given_arguments_examples :
  RL.__init__ "train.py" VNone (VStr "0.11") VNone None None
    (Some "registry/my-image:1.0") None sample_kwargs []
  = (Ok (estimator_with_image "train.py" None None "registry/my-image:1.0" None
           sample_kwargs),
     ["Parameter `image_name` is specified, `toolkit_version` are going to be ignored when choosing the image."])
  /\ RL.__init__ "train.py" VNone VNone VNone None None
       (Some "registry/my-image:1.0") None sample_kwargs []
     = (Ok (estimator_with_image "train.py" None None "registry/my-image:1.0" None
              sample_kwargs), []).
Proof.
  split.
  - exact (rl_init_with_image_warns_about_given_arguments "train.py" VNone
             (VStr "0.11") VNone None None "registry/my-image:1.0" None sample_kwargs
             [] ltac:(discriminate) eq_refl eq_refl).
  - exact (rl_init_with_image_warns_about_given_arguments "train.py" VNone
             VNone VNone None None "registry/my-image:1.0" None sample_kwargs
             [] ltac:(discriminate) eq_refl eq_refl).
Defined.

(** X7. Metric definitions: without an image, a non-empty list given by the
    caller is kept and otherwise the defaults of the toolkit are installed, so
    that the object always has metric definitions; with an image the argument
    is kept as it is, and no defaults are installed even when a toolkit is
    passed. *)
Theorem rl_init_metric_definitions :
  forall ep t tv f sd hp md kw log fv,
    table_entry (RL.toolkit_value t) tv (RL.framework_value f) = Some fv ->
    (forall image, str_truthy image = false ->
       exists est,
         RL.__init__ ep (VToolkit t) (VStr tv) (VFramework f) sd hp image md kw log
           = (Ok est, log)
         /\ metric_definitions (RL.base est)
            = match md with
              | None | Some [] => RL.default_metric_definitions (VToolkit t)
              | Some (_ :: _) => md
              end
         /\ exists d rest, metric_definitions (RL.base est) = Some (d :: rest))
    /\ (forall image, image <> "" ->
          exists est log',
            RL.__init__ ep (VToolkit t) (VStr tv) (VFramework f) sd hp (Some image) md kw log
              = (Ok est, log')
            /\ metric_definitions (RL.base est) = md).
Proof.
  intros ep t tv f sd hp md kw log fv Hentry. split.
  - intros image Himg. rewrite (rl_init_without_image _ _ _ _ _ _ _ _ _ _ Himg), Hentry.
    eexists. split; [reflexivity|]. split; [reflexivity|].
    simpl. destruct md as [[|d l]|]; [destruct t| |destruct t]; simpl; eauto.
  - intros image Himg.
    rewrite (rl_init_with_image ep (VToolkit t) (VStr tv) (VFramework f) sd hp image md
               kw log Himg eq_refl eq_refl).
    eauto.
Qed.

(** X7, instance: coach 0.11.1 with tensorflow and no metric definitions. *)
Lemma rl_init_metric_definitions_example :
  (forall image, str_truthy image = false ->
     exists est,
       RL.__init__ "train.py" (VToolkit COACH) (VStr "0.11.1") (VFramework TENSORFLOW)
         None None image None sample_kwargs [] = (Ok est, [])
       /\ metric_definitions (RL.base est) = RL.default_metric_definitions (VToolkit COACH)
       /\ exists d rest, metric_definitions (RL.base est) = Some (d :: rest))
  /\ (forall image, image <> "" ->
        exists est log',
          RL.__init__ "train.py" (VToolkit COACH) (VStr "0.11.1") (VFramework TENSORFLOW)
            None None (Some image) None sample_kwargs [] = (Ok est, log')
          /\ metric_definitions (RL.base est) = None).
Proof.
  exact (rl_init_metric_definitions "train.py" COACH "0.11.1" TENSORFLOW None None None
           sample_kwargs [] "1.12" eq_refl).
Defined.

(** X8. For an entry of the support table and no image, the training image is
    what [create_image_uri] gives for the region, the framework name
    [rl-<framework>], the instance type, the version <toolkit><toolkit_version>
    and python version py3. *)
Theorem rl_train_image_from_table_entry :
  forall `{Imports} ep t tv f sd hp image md kw log fv,
    table_entry (RL.toolkit_value t) tv (RL.framework_value f) = Some fv ->
    str_truthy image = false ->
    exists est,
      RL.__init__ ep (VToolkit t) (VStr tv) (VFramework f) sd hp image md kw log
        = (Ok est, log)
      /\ RL.train_image est
         = Ok (create_image_uri (kw_region_name kw) ("rl-" +:+ RL.framework_value f)
                 (kw_train_instance_type kw) (RL.toolkit_value t +:+ tv) "py3").
Proof.
  intros ? ep t tv f sd hp image md kw log fv Hentry Himg.
  rewrite (rl_init_without_image _ _ _ _ _ _ _ _ _ _ Himg), Hentry.
  eexists. split; [reflexivity|].
  unfold RL.train_image. simpl. rewrite Himg. reflexivity.
Qed.

(** X8, instance: ray 0.6.5 in us-west-2 on ml.c4.xlarge. *)
Lemma rl_train_image_from_table_entry_example :
  exists est,
    RL.__init__ "train.py" (VToolkit RAY) (VStr "0.6.5") (VFramework TENSORFLOW)
      None None None None sample_kwargs [] = (Ok est, [])
    /\ RL.train_image (H := sample_imports) est
       = Ok "us-west-2/sagemaker-rl-tensorflow:ray0.6.5-cpu-py3".
Proof.
  exact (@rl_train_image_from_table_entry sample_imports "train.py" RAY "0.6.5"
           TENSORFLOW None None None None sample_kwargs [] "1.12" eq_refl eq_refl).
Defined.

(* ===================================================================== *)
(** ** Further properties: the hyperparameters sent for an RL job          *)
(* ===================================================================== *)

Lemma mapM_result_Ok {A B} (f : A -> result B) (l : list A) (ks : list B) :
  mapM f l = Ok ks -> Forall2 (fun a b => f a = Ok b) l ks.
Proof.
  revert ks. induction l as [|a l IH]; intros ks Hm; simpl in Hm.
  - injection Hm as <-. constructor.
  - unfold mbind, result_bind in Hm. destruct (f a) as [b|] eqn:Hb; [|discriminate].
    destruct (mapM f l) as [k|]; [|discriminate].
    injection Hm as <-. constructor; auto.
Qed.

Lemma mapM_result_Raise {A B} (f : A -> result B) (l : list A) (e : exn) :
  mapM f l = Raise e -> exists a, In a l /\ f a = Raise e.
Proof.
  induction l as [|a l IH]; intros Hm; simpl in Hm; [discriminate|].
  unfold mbind, result_bind in Hm. destruct (f a) as [b|e'] eqn:Hb.
  - destruct (mapM f l) as [k|e'']; [discriminate|].
    injection Hm as ->. destruct (IH eq_refl) as (x & Hin & Hx).
    exists x. split; [right; exact Hin|exact Hx].
  - injection Hm as ->. exists a. split; [left; reflexivity|exact Hb].
Qed.

Lemma encoded_entries (l : list (string * value)) (kvs : list (string * string)) :
  Forall2 (fun (kv : string * value) (b : string * string) =>
             (s ← Json.dumps kv.2; mret (kv.1, s)) = Ok b) l kvs ->
  kvs.*1 = l.*1
  /\ forall k s, (k, s) ∈ kvs <-> exists v, (k, v) ∈ l /\ Json.dumps v = Ok s.
Proof.
  induction 1 as [|[k0 v0] [k1 s1] l kvs Hhead _ [IHk IH]].
  - split; [reflexivity|]. intros k s. split.
    + intros Hin. inversion Hin.
    + intros (v & Hin & _). inversion Hin.
  - simpl in Hhead. unfold mbind, result_bind in Hhead.
    destruct (Json.dumps v0) as [s0|] eqn:Hd; [|discriminate].
    injection Hhead as <- <-. split; [simpl; f_equal; exact IHk|].
    intros k s. rewrite elem_of_cons, IH. split.
    + intros [Heq|(v & Hin & Hv)].
      * injection Heq as -> ->. exists v0. split; [left|exact Hd].
      * exists v. split; [right; exact Hin|exact Hv].
    + intros (v & Hin & Hv). apply elem_of_cons in Hin as [Heq|Hin].
      * injection Heq as -> ->. left. congruence.
      * right. eauto.
Qed.

(** The wire mapping has, key for key, the JSON text of the values. *)
Lemma json_encode_lookup (hp : gmap string value) (enc : gmap string string) :
  _json_encode_hyperparameters hp = Ok enc ->
  forall k s, enc !! k = Some s <-> exists v, hp !! k = Some v /\ Json.dumps v = Ok s.
Proof.
  unfold _json_encode_hyperparameters. intros Henc k s.
  unfold mbind, result_bind in Henc.
  destruct (mapM _ (map_to_list hp)) as [kvs|] eqn:Hm; [|discriminate].
  injection Henc as <-. apply mapM_result_Ok, encoded_entries in Hm as [Hkeys Hin].
  rewrite <- elem_of_list_to_map by (rewrite Hkeys; apply NoDup_fst_map_to_list).
  rewrite Hin. split; intros (v & Hv & Hd); exists v; split; auto;
    apply elem_of_map_to_list; exact Hv.
Qed.

Lemma json_encode_total (hp : gmap string value) (enc : gmap string string) k v :
  _json_encode_hyperparameters hp = Ok enc -> hp !! k = Some v ->
  exists s, Json.dumps v = Ok s /\ enc !! k = Some s.
Proof.
  intros Henc Hk. pose proof (json_encode_lookup _ _ Henc) as Hlook.
  unfold _json_encode_hyperparameters in Henc. unfold mbind, result_bind in Henc.
  destruct (mapM _ (map_to_list hp)) as [kvs|] eqn:Hm; [|discriminate].
  apply mapM_result_Ok in Hm.
  apply elem_of_map_to_list, list_elem_of_lookup in Hk as [i Hi].
  destruct (Forall2_lookup_l _ _ _ _ _ Hm Hi) as ([k' s] & _ & Hf).
  simpl in Hf. unfold mbind, result_bind in Hf.
  destruct (Json.dumps v) as [s'|] eqn:Hd; [|discriminate].
  exists s'. split; [reflexivity|]. apply Hlook. exists v. split; [|exact Hd].
  apply elem_of_map_to_list, list_elem_of_lookup. eauto.
Qed.

Lemma json_encode_raise (hp : gmap string value) (e : exn) :
  _json_encode_hyperparameters hp = Raise e ->
  exists k v, hp !! k = Some v /\ Json.dumps v = Raise e.
Proof.
  unfold _json_encode_hyperparameters. intros Henc.
  unfold mbind, result_bind in Henc.
  destruct (mapM _ (map_to_list hp)) as [kvs|e'] eqn:Hm; [discriminate|].
  injection Henc as ->. apply mapM_result_Raise in Hm as ([k v] & Hin & Hf).
  simpl in Hf. unfold mbind, result_bind in Hf.
  destruct (Json.dumps v) as [s|e'] eqn:Hd; [discriminate|].
  injection Hf as ->. exists k, v. split; [|exact Hd].
  apply elem_of_map_to_list, list_elem_of_In. exact Hin.
Qed.

(** X9. When [hyperparameters] returns, the result maps the estimator marker
    to the JSON text of "RLEstimator" even if the caller gave a hyperparameter
    of that name, it maps the output location key to the JSON text of the
    output path, and every other key is a hyperparameter of the caller with
    the JSON text of its value. When it raises, some hyperparameter of the
    caller or the output path is not JSON serializable. *)
Theorem rl_hyperparameters_entries :
  forall `{Imports} (self : RL.RLEstimator),
    match RL.hyperparameters self with
    | Ok m =>
        m !! RL.SAGEMAKER_ESTIMATOR
          = Some (Json.encode_basestring_ascii RL.SAGEMAKER_ESTIMATOR_VALUE)
        /\ (SAGEMAKER_OUTPUT_LOCATION <> RL.SAGEMAKER_ESTIMATOR ->
              exists s, Json.dumps (output_path (RL.base self)) = Ok s
                        /\ m !! SAGEMAKER_OUTPUT_LOCATION = Some s)
        /\ (forall k s,
              k <> RL.SAGEMAKER_ESTIMATOR -> k <> SAGEMAKER_OUTPUT_LOCATION ->
              (m !! k = Some s
               <-> exists v, _hyperparameters (RL.base self) !! k = Some v
                             /\ Json.dumps v = Ok s))
    | Raise e =>
        (exists k v, _hyperparameters (RL.base self) !! k = Some v
                     /\ Json.dumps v = Raise e)
        \/ Json.dumps (output_path (RL.base self)) = Raise e
    end.
Proof.
  intros ? self. unfold RL.hyperparameters, Framework_hyperparameters.
  unfold mbind at 1. unfold result_bind.
  destruct (_json_encode_hyperparameters (_hyperparameters (RL.base self)))
    as [hp|e] eqn:Hhp; [|left; apply json_encode_raise, Hhp].
  unfold mbind, result_bind.
  match goal with
  | |- context [_json_encode_hyperparameters ?a] =>
      destruct (_json_encode_hyperparameters a) as [added|e] eqn:Hadd
  end.
  - unfold mret, result_ret. cbv beta iota.
    pose proof (json_encode_lookup _ _ Hadd) as Hlook. split; [|split].
    + apply lookup_union_Some_l, Hlook.
      exists (VStr RL.SAGEMAKER_ESTIMATOR_VALUE). split; [apply lookup_insert_eq|reflexivity].
    + intros Hne.
      destruct (json_encode_total _ _ SAGEMAKER_OUTPUT_LOCATION
                  (output_path (RL.base self)) Hadd) as (s & Hd & Hs).
      { rewrite lookup_insert_ne by congruence. apply lookup_singleton_eq. }
      exists s. split; [exact Hd|]. apply lookup_union_Some_l, Hs.
    + intros k s Hk1 Hk2.
      assert (Hnone : added !! k = None).
      { destruct (added !! k) as [s'|] eqn:Hs'; [|reflexivity].
        apply Hlook in Hs' as (v & Hv & _).
        rewrite lookup_insert_ne, lookup_singleton_ne in Hv by congruence.
        discriminate Hv. }
      rewrite lookup_union_r by exact Hnone.
      apply (json_encode_lookup _ _ Hhp).
  - right. apply json_encode_raise in Hadd as (k & v & Hv & Hd).
    apply lookup_insert_Some in Hv as [[_ <-]|[_ Hv]]; [discriminate Hd|].
    apply lookup_singleton_Some in Hv as [_ <-]. exact Hd.
Qed.

(* ===================================================================== *)
(** ** Further properties: rebuilding the arguments from a job             *)
(* ===================================================================== *)

(** X10. When the image of the job is not recognised (no framework is decoded
    from it), both methods return the arguments of the base class with the
    image moved from the key "image" to the key "image_name", and derive
    nothing else. *)
Theorem reconstruction_passes_unrecognised_image_through :
  forall `{Imports} (details : job_details) (channel : option string)
         (params : gmap string value) (image : string)
         (fw py tag sm : option string),
    base_prepare_init_params_from_job_description details channel = Ok params ->
    params !! "image" = Some (VStr image) ->
    framework_name_from_image image = (fw, py, tag, sm) ->
    str_truthy fw = false ->
    MXNet._prepare_init_params_from_job_description details channel
      = Ok (<["image_name" := VStr image]> (delete "image" params))
    /\ RL._prepare_init_params_from_job_description details channel
       = Ok (<["image_name" := VStr image]> (delete "image" params)).
Proof.
  intros ? details channel params image fw py tag sm Hbase Himage Hname Hfw.
  unfold MXNet._prepare_init_params_from_job_description,
    RL._prepare_init_params_from_job_description.
  rewrite Hbase. unfold mbind, result_bind, dict_pop.
  rewrite Himage, Hname, Hfw. split; reflexivity.
Qed.

(** X10, instance: a job that ran a custom image. *)
Lemma reconstruction_passes_unrecognised_image_through_example :
  MXNet._prepare_init_params_from_job_description
    (H := MoreProps.imports_decoding (None, None, None, None) MoreProps.sample_params)
    "registry/my-image:1.0" None
  = Ok (<["image_name" := VStr "registry/my-image:1.0"]>
          (delete "image" (<["image" := VStr "registry/my-image:1.0"]>
                             MoreProps.sample_params)))
  /\ RL._prepare_init_params_from_job_description
       (H := MoreProps.imports_decoding (None, None, None, None) MoreProps.sample_params)
       "registry/my-image:1.0" None
     = Ok (<["image_name" := VStr "registry/my-image:1.0"]>
             (delete "image" (<["image" := VStr "registry/my-image:1.0"]>
                                MoreProps.sample_params))).
Proof.
  exact (@reconstruction_passes_unrecognised_image_through
           (MoreProps.imports_decoding (None, None, None, None) MoreProps.sample_params)
           "registry/my-image:1.0" None _ "registry/my-image:1.0" None None None None
           eq_refl (lookup_insert_eq _ _ _) eq_refl eq_refl).
Defined.

Lemma unsupported_without_rl_toolkit (toolkit : option string) (tv fw : value) :
  toolkit <> Some "coach" -> toolkit <> Some "ray" ->
  RL._is_combination_supported (of_option_str toolkit) tv fw = false.
Proof.
  intros Hc Hr. destruct toolkit as [tk|]; [|reflexivity].
  unfold RL._is_combination_supported, RL.TOOLKIT_FRAMEWORK_VERSION_MAP. simpl.
  rewrite lookup_insert_ne, lookup_singleton_ne by congruence. reflexivity.
Qed.

(** X11. In the RL method, a recognised framework does not suffice: when the
    tag parser gives no toolkit of the table for the tag (the tag does not
    match the pattern, or its letters are not coach or ray, as for an image of
    the plain framework), the method raises the value error that names the
    training job. *)
Theorem rl_reconstruction_rejects_unknown_toolkit :
  forall `{Imports} (details : job_details) (channel : option string)
         (params : gmap string value) (image : string) (job : value)
         (fw : string) (py : option string) (tag : string) (sm : option string),
    base_prepare_init_params_from_job_description details channel = Ok params ->
    params !! "image" = Some (VStr image) ->
    params !! "base_job_name" = Some job ->
    framework_name_from_image image = (Some fw, py, Some tag, sm) ->
    fw <> "" ->
    (RL._toolkit_and_version_from_tag tag).1 <> Some "coach" ->
    (RL._toolkit_and_version_from_tag tag).1 <> Some "ray" ->
    RL._prepare_init_params_from_job_description details channel
    = Raise (ValueError ("Training job: " +:+ str job
                           +:+ " didn't use image for requested framework")).
Proof.
  intros ? details channel params image job fw py tag sm Hbase Himage Hjob Hname Hfw Hc Hr.
  assert (Htruthy : str_truthy (Some fw) = true).
  { simpl. destruct (String.eqb_spec fw ""); [contradiction|reflexivity]. }
  unfold RL._prepare_init_params_from_job_description.
  rewrite Hbase. unfold mbind, result_bind, dict_pop. rewrite Himage, Hname, Htruthy.
  cbn [negb].
  destruct (RL._toolkit_and_version_from_tag tag) as [toolkit toolkit_version].
  simpl in Hc, Hr.
  rewrite (unsupported_without_rl_toolkit _ _ _ Hc Hr). cbn [negb].
  unfold dict_getitem, dict_get.
  rewrite lookup_delete_ne, Hjob by discriminate. reflexivity.
Qed.

(** X11, instance: a job that ran the plain TensorFlow image. *)
Lemma rl_reconstruction_rejects_unknown_toolkit_example :
  RL._prepare_init_params_from_job_description
    (H := MoreProps.imports_decoding
            (Some "tensorflow", Some "py3", Some "1.11-cpu-py3", None)
            MoreProps.sample_params)
    "registry/sagemaker-tensorflow:1.11-cpu-py3" None
  = Raise (ValueError "Training job: job-1 didn't use image for requested framework").
Proof.
  exact (@rl_reconstruction_rejects_unknown_toolkit
           (MoreProps.imports_decoding
              (Some "tensorflow", Some "py3", Some "1.11-cpu-py3", None)
              MoreProps.sample_params)
           "registry/sagemaker-tensorflow:1.11-cpu-py3" None _
           "registry/sagemaker-tensorflow:1.11-cpu-py3" (VStr "job-1")
           "tensorflow" (Some "py3") "1.11-cpu-py3" None
           eq_refl (lookup_insert_eq _ _ _) ltac:(vm_compute; reflexivity) eq_refl
           ltac:(discriminate) ltac:(vm_compute; discriminate)
           ltac:(vm_compute; discriminate)).
Defined.

Lemma table_entry_tag_parses (t : RLToolkit) (tv : string) (f : RLFramework)
    (fv device : string) :
  table_entry (RL.toolkit_value t) tv (RL.framework_value f) = Some fv ->
  device = "cpu" \/ device = "gpu" ->
  RL._toolkit_and_version_from_tag
    (RL.image_tag (RL.toolkit_value t +:+ tv) device RL.PYTHON_VERSION)
  = (Some (RL.toolkit_value t), Some tv).
Proof.
  intros Hentry Hdev. apply table_entry_in_rows in Hentry.
  unfold table_rows in Hentry. simpl in Hentry.
  repeat (destruct Hentry as [Hentry|Hentry];
          [injection Hentry as Ht <- Hf _; destruct t; try discriminate Ht;
           destruct Hdev as [->| ->]; vm_compute; reflexivity|]).
  destruct Hentry.
Qed.

(** X12. Round trip through a job description: when the image of a job
    decodes to the framework of an entry of the support table and to the tag
    that the estimator of that entry asks for, the RL method returns the
    arguments of the base class without the image and with exactly the
    toolkit, toolkit version and framework of the entry, and the constructor
    accepts these and resolves the framework version of the entry. *)
Theorem rl_reconstruction_round_trip :
  forall `{Imports} (details : job_details) (channel : option string)
         (params : gmap string value) (image : string) (py sm : option string)
         (t : RLToolkit) (tv : string) (f : RLFramework) (fv device : string),
    base_prepare_init_params_from_job_description details channel = Ok params ->
    params !! "image" = Some (VStr image) ->
    table_entry (RL.toolkit_value t) tv (RL.framework_value f) = Some fv ->
    device = "cpu" \/ device = "gpu" ->
    framework_name_from_image image
      = (Some (RL.framework_value f), py,
         Some (RL.image_tag (RL.toolkit_value t +:+ tv) device RL.PYTHON_VERSION), sm) ->
    RL._prepare_init_params_from_job_description details channel
      = Ok (<["framework" := VFramework f]>
              (<["toolkit_version" := VStr tv]>
                 (<["toolkit" := VToolkit t]> (delete "image" params))))
    /\ forall ep sd hp md kw log,
         RL.__init__ ep (VToolkit t) (VStr tv) (VFramework f) sd hp None md kw log
         = (Ok (estimator_for ep t tv f sd hp None md kw fv), log).
Proof.
  intros ? details channel params image py sm t tv f fv device
    Hbase Himage Hentry Hdev Hname.
  split.
  - unfold RL._prepare_init_params_from_job_description.
    rewrite Hbase. unfold mbind, result_bind, dict_pop. rewrite Himage, Hname.
    assert (Htruthy : str_truthy (Some (RL.framework_value f)) = true)
      by (destruct f; reflexivity).
    rewrite Htruthy. cbn [negb].
    rewrite (table_entry_tag_parses _ _ _ _ _ Hentry Hdev).
    cbn [of_option_str]. rewrite is_combination_supported_table, Hentry. cbn [negb].
    assert (Ht : RL.RLToolkit_of (Some (RL.toolkit_value t)) = Ok t)
      by (destruct t; reflexivity).
    assert (Hf : RL.RLFramework_of (Some (RL.framework_value f)) = Ok f)
      by (destruct f; reflexivity).
    rewrite Ht, Hf. reflexivity.
  - intros ep sd hp md kw log.
    rewrite (rl_init_without_image ep t tv f sd hp None md kw log eq_refl), Hentry.
    reflexivity.
Qed.

(** X12, instance: a job that ran the image for coach 0.11.1 with tensorflow. *)
Lemma rl_reconstruction_round_trip_example :
  RL._prepare_init_params_from_job_description
    (H := MoreProps.imports_decoding
            (Some "tensorflow", Some "py3", Some "coach0.11.1-gpu-py3", None)
            MoreProps.sample_params)
    "registry/sagemaker-rl-tensorflow:coach0.11.1-gpu-py3" None
  = Ok (<["framework" := VFramework TENSORFLOW]>
          (<["toolkit_version" := VStr "0.11.1"]>
             (<["toolkit" := VToolkit COACH]>
                (delete "image"
                   (<["image" := VStr "registry/sagemaker-rl-tensorflow:coach0.11.1-gpu-py3"]>
                      MoreProps.sample_params)))))
  /\ forall ep sd hp md kw log,
       RL.__init__ ep (VToolkit COACH) (VStr "0.11.1") (VFramework TENSORFLOW)
         sd hp None md kw log
       = (Ok (estimator_for ep COACH "0.11.1" TENSORFLOW sd hp None md kw "1.12"), log).
Proof.
  exact (@rl_reconstruction_round_trip
           (MoreProps.imports_decoding
              (Some "tensorflow", Some "py3", Some "coach0.11.1-gpu-py3", None)
              MoreProps.sample_params)
           "registry/sagemaker-rl-tensorflow:coach0.11.1-gpu-py3" None _
           "registry/sagemaker-rl-tensorflow:coach0.11.1-gpu-py3" (Some "py3") None
           COACH "0.11.1" TENSORFLOW "1.12" "gpu"
           eq_refl (lookup_insert_eq _ _ _) eq_refl (or_intror eq_refl) eq_refl).
Defined.

(** X13. In the MXNet method, an image that decodes to the framework mxnet
    gives the arguments of the base class without the image and with the
    python version and the framework version, which is "0.12" for the old tag
    "1.0" and otherwise what [framework_version_from_tag] reads from the tag.
    The name of the job is read before the frameworks are compared: a
    description without it raises a key error even when the framework is the
    right one. *)
Theorem mxnet_reconstruction_of_mxnet_image :
  forall `{Imports} (details : job_details) (channel : option string)
         (params : gmap string value) (image : string) (py : option string)
         (tag : string) (sm : option string),
    base_prepare_init_params_from_job_description details channel = Ok params ->
    params !! "image" = Some (VStr image) ->
    framework_name_from_image image = (Some MXNet.__framework_name__, py, Some tag, sm) ->
    MXNet._prepare_init_params_from_job_description details channel
    = match params !! "base_job_name" with
      | Some _ =>
          Ok (<["framework_version" :=
                  if String.eqb tag "1.0" then VStr "0.12"
                  else of_option_str (framework_version_from_tag tag)]>
                (<["py_version" := of_option_str py]> (delete "image" params)))
      | None => Raise (KeyError "base_job_name")
      end.
Proof.
  intros ? details channel params image py tag sm Hbase Himage Hname.
  unfold MXNet._prepare_init_params_from_job_description.
  rewrite Hbase. unfold mbind, result_bind, dict_pop. rewrite Himage, Hname.
  cbn [str_truthy MXNet.__framework_name__]. simpl negb.
  unfold dict_getitem, dict_get.
  rewrite !lookup_insert_ne, lookup_delete_ne by discriminate.
  destruct (params !! "base_job_name"); reflexivity.
Qed.

(** X13, instance: a job that ran the image with the old tag "1.0". *)
Lemma mxnet_reconstruction_of_mxnet_image_example :
  MXNet._prepare_init_params_from_job_description
    (H := MoreProps.imports_decoding (Some "mxnet", Some "py2", Some "1.0", None)
            MoreProps.sample_params)
    "registry/sagemaker-mxnet-py2-cpu:1.0" None
  = Ok (<["framework_version" := VStr "0.12"]>
          (<["py_version" := VStr "py2"]>
             (delete "image"
                (<["image" := VStr "registry/sagemaker-mxnet-py2-cpu:1.0"]>
                   MoreProps.sample_params)))).
Proof.
  exact (@mxnet_reconstruction_of_mxnet_image
           (MoreProps.imports_decoding (Some "mxnet", Some "py2", Some "1.0", None)
              MoreProps.sample_params)
           "registry/sagemaker-mxnet-py2-cpu:1.0" None _
           "registry/sagemaker-mxnet-py2-cpu:1.0" (Some "py2") "1.0" None
           eq_refl (lookup_insert_eq _ _ _) eq_refl).
Defined.

(* ===================================================================== *)
(** ** Further properties: the MXNet constructor                           *)
(* ===================================================================== *)

(** X14. Without [distributions] the MXNet constructor always succeeds, for
    every framework version (the lowest version is not checked). The version
    kept is the one given, or [MXNET_VERSION] when none or the empty string is
    given; the log gains the warning about a missing version only when the
    version is [None] (not for the empty string), and then the deprecation
    warning when the python version is "py2". The hyperparameters are those of
    the caller. *)
Theorem mxnet_init_without_distributions :
  forall `{Imports} ep sd hp py fv image kw log,
    MXNet.__init__ ep sd hp py fv image None kw log
    = (Ok {| MXNet.base := Framework_init ep sd hp image None kw;
             MXNet.framework_version :=
               match fv with
               | Some v => if String.eqb v "" then MXNET_VERSION else v
               | None => MXNET_VERSION
               end;
             MXNet.py_version := py |},
       (log ++ (match fv with
                | None => [empty_framework_version_warning MXNET_VERSION MXNet.LATEST_VERSION]
                | Some _ => []
                end)
            ++ (if String.eqb py "py2"
                then [python_deprecation_warning MXNet.__framework_name__]
                else []))%list).
Proof.
  intros ? ep sd hp py fv image kw log.
  unfold MXNet.__init__, mbind, mret, M_bind, M_ret, lift, warning. simpl.
  destruct fv as [v|]; simpl.
  - destruct (String.eqb v ""), (String.eqb py "py2"); simpl;
      rewrite ?List.app_nil_r; reflexivity.
  - destruct (String.eqb py "py2"); simpl;
      rewrite ?List.app_nil_r, <- ?List.app_assoc; reflexivity.
Qed.

(** X15. When the distribution check passes, it changes nothing but the
    parameter server entry of the hyperparameters: the framework version, the
    python version, the image and every other hyperparameter stay, the entry
    is set to the [enabled] flag of the [parameter_server] section ([False]
    when the section has none), and without that section the object is
    unchanged. *)
Theorem mxnet_configure_distribution_frame :
  forall `{Imports} (self self' : MXNet.MXNet)
         (distributions : gmap string (gmap string value)),
    MXNet._configure_distribution self (Some distributions) = Ok self' ->
    list_lt (split "." (MXNet.framework_version self)) MXNet._LOWEST_SCRIPT_MODE_VERSION
      = false
    /\ MXNet.framework_version self' = MXNet.framework_version self
    /\ MXNet.py_version self' = MXNet.py_version self
    /\ image_name (MXNet.base self') = image_name (MXNet.base self)
    /\ (forall k, k <> LAUNCH_PS_ENV_NAME ->
          _hyperparameters (MXNet.base self') !! k = _hyperparameters (MXNet.base self) !! k)
    /\ match distributions !! "parameter_server" with
       | Some ps =>
           _hyperparameters (MXNet.base self') !! LAUNCH_PS_ENV_NAME
           = Some (default (VBool false) (ps !! "enabled"))
       | None => self' = self
       end.
Proof.
  intros ? self self' distributions Hok. unfold MXNet._configure_distribution in Hok.
  destruct (list_lt _ _); [discriminate|]. split; [reflexivity|].
  destruct (distributions !! "parameter_server") as [ps|].
  - injection Hok as <-. simpl. repeat split.
    + intros k Hk. apply lookup_insert_ne. congruence.
    + apply lookup_insert_eq.
  - injection Hok as <-. repeat split.
Qed.

(** X15, instance: version 1.4 with a parameter server section that has no
    [enabled] flag. *)
Lemma mxnet_configure_distribution_frame_example :
  exists self',
    MXNet._configure_distribution (H := sample_imports)
      {| MXNet.base := Framework_init "train.py" None None None None sample_kwargs;
         MXNet.framework_version := "1.4"; MXNet.py_version := "py3" |}
      (Some {["parameter_server" := ∅]}) = Ok self'
    /\ MXNet.framework_version self' = "1.4"
    /\ _hyperparameters (MXNet.base self') !! "sagemaker_parameter_server_enabled"
       = Some (VBool false).
Proof.
  eexists. split; [reflexivity|].
  pose proof (@mxnet_configure_distribution_frame sample_imports
                {| MXNet.base := Framework_init "train.py" None None None None sample_kwargs;
                   MXNet.framework_version := "1.4"; MXNet.py_version := "py3" |}
                _ {["parameter_server" := ∅]} eq_refl) as (_ & Hv & _ & _ & _ & Hps).
  split; [exact Hv|exact Hps].
Defined.

Lemma version_gate_single_digits (a b : nat) :
  a < 10 -> b < 10 ->
  list_lt (split "." (MoreProps.version_text [a; b])) MXNet._LOWEST_SCRIPT_MODE_VERSION
    = MoreProps.below_1_3 a b
  /\ forall c, c < 10 ->
       list_lt (split "." (MoreProps.version_text [a; b; c]))
         MXNet._LOWEST_SCRIPT_MODE_VERSION
       = MoreProps.below_1_3 a b.
Proof.
  intros Ha Hb.
  set (digits := seq 0 10).
  assert (Hall :
    forallb (fun x => forallb (fun y =>
      Bool.eqb (list_lt (split "." (MoreProps.version_text [x; y]))
                  MXNet._LOWEST_SCRIPT_MODE_VERSION) (MoreProps.below_1_3 x y)
      && forallb (fun z =>
           Bool.eqb (list_lt (split "." (MoreProps.version_text [x; y; z]))
                       MXNet._LOWEST_SCRIPT_MODE_VERSION) (MoreProps.below_1_3 x y))
           digits) digits) digits = true) by (vm_compute; reflexivity).
  assert (Hin : forall n, n < 10 -> In n digits)
    by (intros n Hn; apply in_seq; lia).
  rewrite forallb_forall in Hall. specialize (Hall a (Hin a Ha)).
  rewrite forallb_forall in Hall. specialize (Hall b (Hin b Hb)).
  apply andb_prop in Hall as [H2 H3]. split.
  - apply Bool.eqb_prop. exact H2.
  - intros c Hc. rewrite forallb_forall in H3.
    apply Bool.eqb_prop. exact (H3 c (Hin c Hc)).
Qed.

(** X16. For a framework version whose fields are single digits (major.minor
    or major.minor.patch), the distribution check agrees with the numeric
    order: it raises exactly when (major, minor) is below (1, 3). *)
Theorem mxnet_version_gate_agrees_on_single_digits :
  forall `{Imports} (self : MXNet.MXNet) (distributions : gmap string (gmap string value))
         (major minor : nat),
    major < 10 -> minor < 10 ->
    MXNet.framework_version self = MoreProps.version_text [major; minor]
    \/ (exists patch, patch < 10
          /\ MXNet.framework_version self = MoreProps.version_text [major; minor; patch]) ->
    if MoreProps.below_1_3 major minor
    then MXNet._configure_distribution self (Some distributions)
         = Raise (ValueError
                    "The distributions option is valid for only versions 1.3 and higher")
    else exists self', MXNet._configure_distribution self (Some distributions) = Ok self'.
Proof.
  intros ? self distributions major minor Ha Hb Hv.
  destruct (version_gate_single_digits major minor Ha Hb) as [H2 H3].
  assert (Hgate : list_lt (split "." (MXNet.framework_version self))
                    MXNet._LOWEST_SCRIPT_MODE_VERSION = MoreProps.below_1_3 major minor).
  { destruct Hv as [->|(patch & Hp & ->)]; auto. }
  unfold MXNet._configure_distribution. rewrite Hgate.
  destruct (MoreProps.below_1_3 major minor); [reflexivity|].
  destruct (distributions !! "parameter_server"); eauto.
Qed.

(** X16, instance: version 1.9.1 passes. *)
Lemma mxnet_version_gate_agrees_on_single_digits_example :
  exists self',
    MXNet._configure_distribution (H := sample_imports)
      {| MXNet.base := Framework_init "train.py" None None None None sample_kwargs;
         MXNet.framework_version := "1.9.1"; MXNet.py_version := "py3" |}
      (Some ∅) = Ok self'.
Proof.
  refine (@mxnet_version_gate_agrees_on_single_digits sample_imports
           {| MXNet.base := Framework_init "train.py" None None None None sample_kwargs;
              MXNet.framework_version := "1.9.1"; MXNet.py_version := "py3" |}
           ∅ 1 9 _ _ _); [lia|lia|].
  right. exists 1. split; [lia|reflexivity].
Defined.

(* ===================================================================== *)
(** ** Further properties: the model of an RL estimator                    *)
(* ===================================================================== *)

(** X17. For an estimator built without an image from an entry of the support
    table, [create_model] (called with an entry point, or with neither a source
    directory nor dependencies) never falls off its end and never fails on an
    attribute: for the Ray toolkit it raises [NotImplementedError]; for Coach
    it returns the TensorFlow serving model or the MXNet model (with python
    version py3) according to the framework, with the framework version of the
    entry and the role given, or else the role of the estimator. Only the
    MXNet model gets the entry point. *)
Theorem rl_create_model_of_table_entry :
  forall {vpc : Type} ep t tv f sd hp image md kw log fv (h : RLModel.hosting vpc)
         role (override : vpc) entry_point source_dir dependencies,
    table_entry (RL.toolkit_value t) tv (RL.framework_value f) = Some fv ->
    str_truthy image = false ->
    str_truthy entry_point = true
    \/ (str_truthy source_dir = false /\ RLModel.list_truthy dependencies = false) ->
    exists est,
      RL.__init__ ep (VToolkit t) (VStr tv) (VFramework f) sd hp image md kw log
        = (Ok est, log)
      /\ match t, f with
         | RAY, _ =>
             exists msg,
               RLModel.create_model est h role override entry_point source_dir dependencies
               = RLModel.RaisedNotImplemented msg
         | COACH, TENSORFLOW =>
             exists b,
               RLModel.create_model est h role override entry_point source_dir dependencies
               = RLModel.Returned (Some (RLModel.tfsModel fv b))
               /\ RLModel.b_role b
                  = (if str_truthy role then default "" role else RLModel.estimator_role h)
               /\ RLModel.b_model_data b = RLModel.model_data h
         | COACH, MXNET =>
             exists a,
               RLModel.create_model est h role override entry_point source_dir dependencies
               = RLModel.Returned (Some (RLModel.MXNetModel fv "py3" a))
               /\ RLModel.e_entry_point a
                  = (if str_truthy entry_point then default "" entry_point else ep)
               /\ RLModel.b_role (RLModel.e_base a)
                  = (if str_truthy role then default "" role else RLModel.estimator_role h)
         end.
Proof.
  intros vpc ep t tv f sd hp image md kw log fv h role override entry_point source_dir
    dependencies Hentry Himg Hargs.
  rewrite (rl_init_without_image _ _ _ _ _ _ _ _ _ _ Himg), Hentry.
  eexists. split; [reflexivity|].
  assert (Hcheck : negb (str_truthy entry_point)
                   && (str_truthy source_dir || RLModel.list_truthy dependencies) = false).
  { destruct Hargs as [->|[-> ->]]; [reflexivity|apply andb_false_r]. }
  unfold RLModel.create_model. rewrite Hcheck. simpl. rewrite Himg.
  destruct t, f; simpl; eauto.
Qed.

(** X17, instance: coach 0.11.0 with mxnet, all arguments left out. *)
Lemma rl_create_model_of_table_entry_example :
  exists est,
    RL.__init__ "train.py" (VToolkit COACH) (VStr "0.11.0") (VFramework MXNET)
      None None None None sample_kwargs [] = (Ok est, [])
    /\ exists a,
         RLModel.create_model est MoreProps.sample_hosting None tt None None None
         = RLModel.Returned (Some (RLModel.MXNetModel "1.3" "py3" a))
         /\ RLModel.e_entry_point a = "train.py"
         /\ RLModel.b_role (RLModel.e_base a) = "EstimatorRole".
Proof.
  exact (@rl_create_model_of_table_entry unit "train.py" COACH "0.11.0" MXNET None None
           None None sample_kwargs [] "1.3" MoreProps.sample_hosting None tt None None
           None eq_refl eq_refl (or_intror (conj eq_refl eq_refl))).
Defined.

(** X18. For an estimator built with an image, [create_model] returns the
    generic framework model for that image, whatever toolkit arguments were
    passed to the constructor, with the entry point, source directory and
    dependencies given, or else those of the estimator. For every estimator, a
    source directory or dependencies without an entry point raise the
    attribute error that asks for one. *)
Theorem rl_create_model_with_image :
  forall {vpc : Type} ep toolkit tv framework sd hp image md kw log
         (h : RLModel.hosting vpc) role (override : vpc) entry_point source_dir
         dependencies,
    image <> "" ->
    RL._validate_toolkit_format toolkit = Ok tt ->
    RL._validate_framework_format framework = Ok tt ->
    exists est log',
      RL.__init__ ep toolkit tv framework sd hp (Some image) md kw log = (Ok est, log')
      /\ if negb (str_truthy entry_point)
            && (str_truthy source_dir || RLModel.list_truthy dependencies)
         then RLModel.create_model est h role override entry_point source_dir dependencies
              = RLModel.Raised (AttributeError "Please provide an `entry_point`.")
         else exists a,
           RLModel.create_model est h role override entry_point source_dir dependencies
           = RLModel.Returned (Some (RLModel.FrameworkModel a))
           /\ RLModel.b_image (RLModel.e_base a) = Some image
           /\ RLModel.e_entry_point a
              = (if str_truthy entry_point then default "" entry_point else ep)
           /\ RLModel.e_source_dir a
              = (if str_truthy source_dir then source_dir else RLModel._model_source_dir h)
           /\ RLModel.e_dependencies a
              = (if RLModel.list_truthy dependencies then default [] dependencies
                 else RLModel.estimator_dependencies h).
Proof.
  intros vpc ep toolkit tv framework sd hp image md kw log h role override entry_point
    source_dir dependencies Himg Ht Hf.
  rewrite (rl_init_with_image ep toolkit tv framework sd hp image md kw log Himg Ht Hf).
  do 2 eexists. split; [reflexivity|].
  unfold RLModel.create_model.
  destruct (negb (str_truthy entry_point)
            && (str_truthy source_dir || RLModel.list_truthy dependencies));
    [reflexivity|].
  assert (Htruthy : str_truthy (Some image) = true).
  { simpl. destruct (String.eqb_spec image ""); [contradiction|reflexivity]. }
  simpl image_name. rewrite Htruthy. eexists. split; [reflexivity|]. simpl. auto.
Qed.

(** X18, instance: an image together with the Ray toolkit, for which there is
    no model without an image. *)
Lemma rl_create_model_with_image_example :
  exists est log',
    RL.__init__ "train.py" (VToolkit RAY) (VStr "0.6.5") (VFramework TENSORFLOW)
      None None (Some "registry/my-image:1.0") None sample_kwargs [] = (Ok est, log')
    /\ exists a,
         RLModel.create_model est MoreProps.sample_hosting (Some "HostingRole") tt
           (Some "serve.py") None None
         = RLModel.Returned (Some (RLModel.FrameworkModel a))
         /\ RLModel.b_image (RLModel.e_base a) = Some "registry/my-image:1.0"
         /\ RLModel.e_entry_point a = "serve.py"
         /\ RLModel.e_source_dir a = Some "s3://bucket/job-1/source"
         /\ RLModel.e_dependencies a = [].
Proof.
  refine (@rl_create_model_with_image unit "train.py" (VToolkit RAY) (VStr "0.6.5")
            (VFramework TENSORFLOW) None None "registry/my-image:1.0" None
            sample_kwargs [] MoreProps.sample_hosting (Some "HostingRole") tt
            (Some "serve.py") None None _ eq_refl eq_refl).
  discriminate.
Defined.

(* ===================================================================== *)
(** ** Further properties: the PyTorch model                               *)
(* ===================================================================== *)

(** X19. The environment of the container definition, key by key: the model
    server workers variable holds the decimal text of [model_server_workers]
    when that is an integer other than 0 ([None] and 0 set nothing); otherwise
    a variable of the framework (as set after the code upload) wins over a
    variable of the same name in the environment of the model, which is kept
    for every other key. *)
Theorem pytorch_container_environment :
  forall `{PyTorch.ModelImports} (self : PyTorch.PyTorchModel) (instance_type : string)
         (accelerator_type : option string) (k : string),
    let container := PyTorch.prepare_container_def self instance_type accelerator_type in
    let framework_env :=
      PyTorch.framework_env_vars_after_upload
        (PyTorch.model_code_key_prefix (PyTorch.key_prefix self) (PyTorch.name self)
           (PyTorch.Image container)) in
    PyTorch.Environment container !! k
    = match PyTorch.model_server_workers self with
      | Some n =>
          if negb (n =? 0)%Z && bool_decide (k = PyTorch.MODEL_SERVER_WORKERS_PARAM_NAME_upper)
          then Some (pretty n)
          else match framework_env !! k with
               | Some v => Some v
               | None => PyTorch.env self !! k
               end
      | None => match framework_env !! k with
                | Some v => Some v
                | None => PyTorch.env self !! k
                end
      end.
Proof.
  intros ? self instance_type accelerator_type k container framework_env.
  subst container framework_env. unfold PyTorch.prepare_container_def. simpl.
  set (fenv := PyTorch.framework_env_vars_after_upload _).
  assert (Hunion : (fenv ∪ PyTorch.env self) !! k
                   = match fenv !! k with
                     | Some v => Some v
                     | None => PyTorch.env self !! k
                     end).
  { rewrite lookup_union. destruct (fenv !! k), (PyTorch.env self !! k); reflexivity. }
  destruct (PyTorch.model_server_workers self) as [n|]; simpl; [|exact Hunion].
  destruct (n =? 0)%Z; simpl; [exact Hunion|].
  case_bool_decide as Hk.
  - subst k. apply lookup_insert_eq.
  - rewrite lookup_insert_ne by congruence. exact Hunion.
Qed.

(** X20. A model constructed with a non-empty image deploys exactly that
    image, whatever the versions, the instance type and the accelerator; a
    model constructed without one deploys the image that [create_image_uri]
    gives for the region, the framework pytorch, the instance type, the two
    versions and the accelerator type. The model data location is passed on,
    and construction logs the deprecation warning exactly for "py2". *)
Theorem pytorch_container_image :
  forall `{PyTorch.ModelImports} model_data role entry_point image py fv workers kw log
         instance_type accelerator_type,
    exists self,
      PyTorch.__init__ model_data role entry_point image py fv workers kw log
      = (Ok self,
         if String.eqb py "py2"
         then (log ++ [PyTorch.python_deprecation_warning PyTorch.__framework_name__])%list
         else log)
      /\ PyTorch.ModelDataUrl (PyTorch.prepare_container_def self instance_type accelerator_type)
         = model_data
      /\ PyTorch.Image (PyTorch.prepare_container_def self instance_type accelerator_type)
         = match image with
           | Some (String c rest) => String c rest
           | _ => PyTorch.create_image_uri (PyTorch.kw_region_name kw) "pytorch"
                    instance_type fv py accelerator_type
           end.
Proof.
  intros ? model_data role entry_point image py fv workers kw log instance_type
    accelerator_type.
  unfold PyTorch.__init__, mbind, mret, M_bind, M_ret, warning.
  destruct (String.eqb py "py2"); eexists; (split; [reflexivity|]);
    (split; [reflexivity|]); destruct image as [[|c rest]|]; reflexivity.
Qed.

(* ===================================================================== *)
(** ** Further properties: supported combinations                          *)
(* ===================================================================== *)

Lemma unsupported_without_version (toolkit fw : value) :
  RL._is_combination_supported toolkit VNone fw = false.
Proof.
  unfold RL._is_combination_supported.
  destruct (dict_get RL.TOOLKIT_FRAMEWORK_VERSION_MAP toolkit) as [vs|]; [|reflexivity].
  simpl. destruct (dict_truthy vs); reflexivity.
Qed.


(** X22. The RL method on a recognised framework, in full: when the tag and
    the framework stand for an entry of the support table, the method returns
    the arguments of the base class without the image and with the toolkit, the
    toolkit version and the framework of that entry; in every other case (for
    instance ray with mxnet, which the table does not have) it raises the value
    error that names the training job. *)
Theorem rl_reconstruction_of_recognised_image :
  forall `{Imports} (details : job_details) (channel : option string)
         (params : gmap string value) (image : string) (job : value)
         (fw : string) (py : option string) (tag : string) (sm : option string),
    base_prepare_init_params_from_job_description details channel = Ok params ->
    params !! "image" = Some (VStr image) ->
    params !! "base_job_name" = Some job ->
    framework_name_from_image image = (Some fw, py, Some tag, sm) ->
    fw <> "" ->
    RL._prepare_init_params_from_job_description details channel
    = match MoreProps.decoded_triple tag fw with
      | Some (t, tv, f) =>
          Ok (<["framework" := VFramework f]>
                (<["toolkit_version" := VStr tv]>
                   (<["toolkit" := VToolkit t]> (delete "image" params))))
      | None =>
          Raise (ValueError ("Training job: " +:+ str job
                               +:+ " didn't use image for requested framework"))
      end.
Proof.
  intros ? details channel params image job fw py tag sm Hbase Himage Hjob Hname Hfw.
  assert (Htruthy : str_truthy (Some fw) = true).
  { simpl. destruct (String.eqb_spec fw ""); [contradiction|reflexivity]. }
  assert (Hjob' : dict_getitem (delete "image" params) (VStr "base_job_name") = Ok job).
  { unfold dict_getitem, dict_get. rewrite lookup_delete_ne, Hjob by discriminate.
    reflexivity. }
  unfold RL._prepare_init_params_from_job_description, MoreProps.decoded_triple.
  rewrite Hbase. unfold mbind, result_bind, dict_pop. rewrite Himage, Hname, Htruthy.
  cbn [negb].
  destruct (RL._toolkit_and_version_from_tag tag) as [[tk|] [tv|]].
  - cbn [of_option_str]. rewrite is_combination_supported_table.
    destruct (table_entry tk tv fw) as [fv|] eqn:E.
    + cbn [negb]. apply table_entry_in_rows in E. unfold table_rows in E. simpl in E.
      repeat (destruct E as [E|E]; [injection E as <- <- <- <-; reflexivity|]).
      destruct E.
    + cbn [negb]. rewrite Hjob'. reflexivity.
  - cbn [of_option_str]. rewrite unsupported_without_version. cbn [negb].
    rewrite Hjob'. reflexivity.
  - cbn [of_option_str].
    rewrite (unsupported_without_rl_toolkit None) by discriminate.
    cbn [negb]. rewrite Hjob'. reflexivity.
  - cbn [of_option_str].
    rewrite (unsupported_without_rl_toolkit None) by discriminate.
    cbn [negb]. rewrite Hjob'. reflexivity.
Qed.

(** X22, instance: an image for ray 0.5 with the framework mxnet. *)
Lemma rl_reconstruction_of_recognised_image_example :
  RL._prepare_init_params_from_job_description
    (H := MoreProps.imports_decoding
            (Some "mxnet", Some "py3", Some "ray0.5-cpu-py3", None)
            MoreProps.sample_params)
    "registry/sagemaker-rl-mxnet:ray0.5-cpu-py3" None
  = Raise (ValueError "Training job: job-1 didn't use image for requested framework").
Proof.
  refine (@rl_reconstruction_of_recognised_image
            (MoreProps.imports_decoding
               (Some "mxnet", Some "py3", Some "ray0.5-cpu-py3", None)
               MoreProps.sample_params)
            "registry/sagemaker-rl-mxnet:ray0.5-cpu-py3" None _
            "registry/sagemaker-rl-mxnet:ray0.5-cpu-py3" (VStr "job-1")
            "mxnet" (Some "py3") "ray0.5-cpu-py3" None
            eq_refl (lookup_insert_eq _ _ _) _ eq_refl _).
  - vm_compute. reflexivity.
  - discriminate.
Defined.
